(** * Platonic Solids Generator: geometry tables and object assembly

    A shallow embedding of the Blender add-on [v2.py] and of its two
    predecessors: [old versions/v1.3.py], which still has the builder
    [SolidBuilder.add_object] and the template operator, and
    [old versions/v1.1.py], which has a geometry function instead of the
    classes.  The definitions come first; the properties of the geometry
    tables, of the operators and of the registration follow.

    Conventions of the embedding.
    - A coordinate is a rational number: every numeric literal of the
      source ([1], [-1], [0.943], [1.618], ...) is read as the decimal
      rational its text denotes.  The source performs no arithmetic on
      coordinates, it only stores and passes them.
    - A Python exception is a value of [exn]; a method that may raise
      returns a [result].
    - The operators mutate the data of the host application ([bpy]).  The
      part of it they touch is the record [bpy_state]; an operator is a
      function in the state-and-exception monad [M].  Objects are mutable
      and shared, so the state keeps them in a store and the operators
      pass their numbers around; materials are shared by name. *)

From Stdlib Require Import QArith Qabs SetoidList.
From stdpp Require Import gmap strings list fin_maps.

Local Open Scope string_scope.

(** ** Values *)

Definition Vector3 : Type := Q * Q * Q.
Definition Color : Type := Q * Q * Q * Q.
Definition Face : Type := list nat.
Definition Edge : Type := nat * nat.

#[global] Instance Q_eq_dec : EqDecision Q.
Proof. solve_decision. Defined.

(** The triple [vertices, edges, faces] returned by [get_geometry]. *)
Record Geometry : Type := mkGeometry {
  vertices : list Vector3;
  edges : list Edge;
  faces : list Face
}.

#[global] Instance Geometry_eq_dec : EqDecision Geometry.
Proof. solve_decision. Defined.

(** The five subclasses of [PlatonicSolid]. *)
Inductive SolidKind : Type :=
| Tetrahedron
| Cube
| Octahedron
| Dodecahedron
| Icosahedron.

#[global] Instance SolidKind_eq_dec : EqDecision SolidKind.
Proof. solve_decision. Defined.

Definition all_kinds : list SolidKind :=
  [Tetrahedron; Cube; Octahedron; Dodecahedron; Icosahedron].

(** An instance of [PlatonicSolid]: of the base class itself, or of one of
    its subclasses.  The classes have no fields, so an instance is
    determined by its class. *)
Inductive PlatonicSolid : Type :=
| BaseSolid
| SubSolid (k : SolidKind).

Coercion SubSolid : SolidKind >-> PlatonicSolid.

(** ** Exceptions *)

(** [NotImplementedError(msg)] is raised by the program itself;
    [AttributeError_None attr] is the [AttributeError] the interpreter
    raises when the attribute [attr] of [None] is assigned. *)
Inductive exn : Type :=
| NotImplementedError (msg : string)
| AttributeError_None (attr : string).

Inductive result (A : Type) : Type :=
| Ok (a : A)
| Raise (e : exn).

Arguments Ok {A} a.
Arguments Raise {A} e.

Definition raises {A} (r : result A) : Prop := ∃ e, r = Raise e.

(** ** Property declarations

    [PlatonicSolidProperties] declares its fields through the host's
    property constructors; the bounds and defaults below are the arguments
    written in the source. *)

Record FloatProperty : Type := {
  fp_default : Q;
  fp_min : Q;
  fp_max : Q
}.

Record FloatVectorProperty : Type := {
  fvp_size : nat;
  fvp_min : Q;
  fvp_max : Q;
  fvp_default : list Q
}.

Definition color_property : FloatVectorProperty :=
  {| fvp_size := 4; fvp_min := 0.0; fvp_max := 1.0;
     fvp_default := [0.8; 0.8; 0.8; 1.0]%Q |}.

Definition scale_property : FloatProperty :=
  {| fp_default := 1.0; fp_min := 0.1; fp_max := 10.0 |}.

(** A value lies within the declared bounds of a property. *)
Definition fp_admits (p : FloatProperty) (x : Q) : Prop :=
  (fp_min p <= x)%Q ∧ (x <= fp_max p)%Q.

Definition channels (c : Color) : list Q :=
  let '(r, g, b, a) := c in [r; g; b; a].

Definition fvp_admits (p : FloatVectorProperty) (c : Color) : Prop :=
  Forall (λ x, (fvp_min p <= x)%Q ∧ (x <= fvp_max p)%Q) (channels c).

(** The values of the property group read by the operators.  The record
    holds any values; those the declared properties can hold are singled
    out by [props_admitted] below. *)
Record PlatonicSolidProperties : Type := {
  shape_type : string;
  color : Color;
  scale : Q;
  clear_before_create : bool
}.

(** The property group as declared, every field at its default. *)
Definition default_props : PlatonicSolidProperties :=
  {| shape_type := "TETRAHEDRON";
     color := (0.8, 0.8, 0.8, 1.0)%Q;
     scale := 1.0%Q;
     clear_before_create := false |}.

(** ** The host data touched by the operators *)

Record Material : Type := { diffuse_color : Color }.

(** A mesh data-block.  Material slots refer to materials by name, the key
    of [bpy.data.materials]. *)
Record Mesh : Type := {
  mesh_name : string;
  mesh_geometry : Geometry;
  mesh_materials : list string
}.

(** An object.  Every mesh of this program is created for exactly one
    object, so [obj.data] is kept inside the object. *)
Record Object : Type := {
  obj_name : string;
  obj_data : Mesh;
  obj_location : Vector3;
  obj_scale : Vector3;
  obj_selected : bool
}.

(** Objects are referred to by the number they were allocated under;
    materials by name. *)
Record bpy_state : Type := {
  data_objects : gmap nat Object;
  next_object : nat;
  data_materials : gmap string Material;
  collection_objects : list nat;
  active_object : option nat
}.

(** ** The monad of operators: host state and exceptions *)

Definition M (A : Type) : Type := bpy_state → result (A * bpy_state).

#[global] Instance M_ret : MRet M := λ A a st, Ok (a, st).

#[global] Instance M_bind : MBind M := λ A B k c st,
  match c st with
  | Ok (a, st') => k a st'
  | Raise e => Raise e
  end.

Definition lift {A} (r : result A) : M A :=
  λ st, match r with
        | Ok a => Ok (a, st)
        | Raise e => Raise e
        end.

Definition modify (f : bpy_state → bpy_state) : M unit := λ st, Ok (tt, f st).

Definition gets {A} (f : bpy_state → A) : M A := λ st, Ok (f st, st).

(** A [for] loop over a list. *)
Fixpoint for_each {A} (l : list A) (body : A → M unit) : M unit :=
  match l with
  | [] => mret tt
  | x :: l' => body x ;; for_each l' body
  end.

(** *** Host primitives *)

Module bpy.

Definition with_objects (f : gmap nat Object → gmap nat Object)
    (st : bpy_state) : bpy_state :=
  {| data_objects := f (data_objects st);
     next_object := next_object st;
     data_materials := data_materials st;
     collection_objects := collection_objects st;
     active_object := active_object st |}.

Definition set_selected (b : bool) (o : Object) : Object :=
  {| obj_name := obj_name o; obj_data := obj_data o;
     obj_location := obj_location o; obj_scale := obj_scale o;
     obj_selected := b |}.

Definition set_scale (s : Vector3) (o : Object) : Object :=
  {| obj_name := obj_name o; obj_data := obj_data o;
     obj_location := obj_location o; obj_scale := s;
     obj_selected := obj_selected o |}.

Definition set_location (l : Vector3) (o : Object) : Object :=
  {| obj_name := obj_name o; obj_data := obj_data o;
     obj_location := l; obj_scale := obj_scale o;
     obj_selected := obj_selected o |}.

Definition set_materials (ms : list string) (o : Object) : Object :=
  {| obj_name := obj_name o;
     obj_data := {| mesh_name := mesh_name (obj_data o);
                    mesh_geometry := mesh_geometry (obj_data o);
                    mesh_materials := ms |};
     obj_location := obj_location o; obj_scale := obj_scale o;
     obj_selected := obj_selected o |}.

Definition is_selected (objs : gmap nat Object) (i : nat) : bool :=
  match objs !! i with
  | Some o => obj_selected o
  | None => false
  end.

(** [bpy.ops.object.select_all(action='SELECT')]: every object of the
    scene becomes selected. *)
Definition select_all (st : bpy_state) : bpy_state :=
  {| data_objects :=
       foldr (alter (set_selected true)) (data_objects st)
             (collection_objects st);
     next_object := next_object st;
     data_materials := data_materials st;
     collection_objects := collection_objects st;
     active_object := active_object st |}.

Definition ops_object_select_all_SELECT : M unit := modify select_all.

(** [bpy.ops.object.delete(use_global=False)]: the selected objects of the
    scene are removed. *)
Definition delete_selected (st : bpy_state) : bpy_state :=
  {| data_objects :=
       foldr delete (data_objects st)
             (filter (λ i, is_selected (data_objects st) i = true)
                     (collection_objects st));
     next_object := next_object st;
     data_materials := data_materials st;
     collection_objects :=
       filter (λ i, is_selected (data_objects st) i = false)
              (collection_objects st);
     active_object :=
       match active_object st with
       | Some i => if is_selected (data_objects st) i then None else Some i
       | None => None
       end |}.

Definition ops_object_delete : M unit := modify delete_selected.

(** [bpy.data.objects.new(name, mesh)]: a new object at the origin with
    unit scale, not linked and not selected. *)
Definition data_objects_new (name : string) (mesh : Mesh) : M nat :=
  λ st,
    let i := next_object st in
    Ok (i, {| data_objects :=
                <[i := {| obj_name := name; obj_data := mesh;
                          obj_location := (0, 0, 0)%Q;
                          obj_scale := (1, 1, 1)%Q;
                          obj_selected := false |}]> (data_objects st);
              next_object := S i;
              data_materials := data_materials st;
              collection_objects := collection_objects st;
              active_object := active_object st |}).

(** [collection.objects.link(obj)]. *)
Definition collection_objects_link (obj : nat) : M unit :=
  modify (λ st,
    {| data_objects := data_objects st;
       next_object := next_object st;
       data_materials := data_materials st;
       collection_objects := collection_objects st ++ [obj];
       active_object := active_object st |}).

(** Assignment to an attribute of the object [obj]. *)
Definition update_object (obj : nat) (f : Object → Object) : M unit :=
  modify (with_objects (alter f obj)).

(** [obj.data.materials], the material slots of the object's mesh. *)
Definition obj_data_materials (obj : nat) : M (list string) :=
  gets (λ st, match data_objects st !! obj with
              | Some o => mesh_materials (obj_data o)
              | None => []
              end).

(** [bpy.data.materials.get(name)]. *)
Definition data_materials_get (name : string) : M (option string) :=
  gets (λ st, match data_materials st !! name with
              | Some _ => Some name
              | None => None
              end).

(** [bpy.data.materials.new(name=name)], called here only when no
    material has that name, so that the host stores the new material under
    exactly that name; a new material has the host's default colour.  For
    a name that may be in use, see [Operators.data_materials_new_unique]. *)
Definition data_materials_new (name : string) : M string :=
  λ st,
    Ok (name, {| data_objects := data_objects st;
                 next_object := next_object st;
                 data_materials :=
                   <[name := {| diffuse_color := (0.8, 0.8, 0.8, 1.0)%Q |}]>
                     (data_materials st);
                 collection_objects := collection_objects st;
                 active_object := active_object st |}).

(** [mat.diffuse_color = color]. *)
Definition set_diffuse_color (mat : string) (c : Color) : M unit :=
  modify (λ st,
    {| data_objects := data_objects st;
       next_object := next_object st;
       data_materials :=
         alter (λ _, {| diffuse_color := c |}) mat (data_materials st);
       collection_objects := collection_objects st;
       active_object := active_object st |}).

(** The way the host applies the scale of an object to a vertex of its
    mesh: coordinate by coordinate. *)
Definition apply_scale (t v : Vector3) : Vector3 :=
  let '(tx, ty, tz) := t in
  let '(x, y, z) := v in
  (tx * x, ty * y, tz * z)%Q.

(** [context.view_layer.objects.active = obj]. *)
Definition set_active (obj : nat) : M unit :=
  modify (λ st,
    {| data_objects := data_objects st;
       next_object := next_object st;
       data_materials := data_materials st;
       collection_objects := collection_objects st;
       active_object := Some obj |}).

End bpy.

(** The status set [{'FINISHED'}] returned by an operator. *)
Definition FINISHED : gset string := {["FINISHED"]}.

(** ** Builder utilities, identical in [v1.3.py] and [v2.py] *)

Module SolidBuilder.

(** [mesh.from_pydata(vertices, edges, faces)] on a new mesh. *)
Definition create_mesh (name : string) (vs : list Vector3)
    (es : list Edge) (fs : list Face) : M Mesh :=
  mret {| mesh_name := name;
         mesh_geometry := {| vertices := vs; edges := es; faces := fs |};
         mesh_materials := [] |}.

Definition create_material (name : string) (c : Color) : M string :=
  found ← bpy.data_materials_get name;
  mat ← match found with
        | Some m => mret m
        | None => bpy.data_materials_new name
        end;
  bpy.set_diffuse_color mat c ;;
  mret mat.

End SolidBuilder.

(** The statement
    [if obj.data.materials: obj.data.materials[0] = mat
     else: obj.data.materials.append(mat)]
    of [execute] in [v2.py] and of [add_object] in [v1.3.py]. *)
Definition assign_material (obj : nat) (mat : string) : M unit :=
  slots ← bpy.obj_data_materials obj;
  match slots with
  | [] => bpy.update_object obj (bpy.set_materials [mat])
  | _ :: rest => bpy.update_object obj (bpy.set_materials (mat :: rest))
  end.

(** ** The program [v2.py] *)

Module V2.

Definition Tetrahedron_get_geometry : Geometry :=
  {| vertices := [(0.943, 0, -0.333); (-0.471, -0.816, -0.333);
                  (-0.471, 0.816, -0.333); (0, 0, 1)]%Q;
     edges := [];
     faces := [[0; 1; 2]; [0; 1; 3]; [0; 2; 3]; [1; 2; 3]] |}.

Definition Cube_get_geometry : Geometry :=
  {| vertices := [(1, 1, 1); (1, -1, 1); (-1, -1, 1); (-1, 1, 1);
                  (1, 1, -1); (1, -1, -1); (-1, -1, -1); (-1, 1, -1)]%Q;
     edges := [];
     faces := [[0; 1; 2; 3]; [4; 5; 6; 7]; [0; 4; 5; 1];
               [1; 5; 6; 2]; [2; 6; 7; 3]; [3; 7; 4; 0]] |}.

Definition Octahedron_get_geometry : Geometry :=
  {| vertices := [(0, 0, -1); (-1, 0, 0); (0, -1, 0);
                  (1, 0, 0); (0, 1, 0); (0, 0, 1)]%Q;
     edges := [];
     faces := [[0; 1; 2]; [0; 2; 3]; [0; 3; 4]; [0; 4; 1];
               [5; 1; 2]; [5; 2; 3]; [5; 3; 4]; [5; 4; 1]] |}.

Definition Dodecahedron_get_geometry : Geometry :=
  {| vertices := [(1, 1, 1); (1, -1, 1); (-1, -1, 1); (-1, 1, 1);
                  (1, 1, -1); (1, -1, -1); (-1, -1, -1); (-1, 1, -1);
                  (0, 1.618, 0.618); (0, -1.618, 0.618);
                  (0, -1.618, -0.618); (0, 1.618, -0.618);
                  (0.618, 0, 1.618); (-0.618, 0, 1.618);
                  (-0.618, 0, -1.618); (0.618, 0, -1.618);
                  (1.618, 0.618, 0); (-1.618, 0.618, 0);
                  (-1.618, -0.618, 0); (1.618, -0.618, 0)]%Q;
     edges := [];
     faces := [[8; 11; 4; 16; 0]; [8; 11; 7; 17; 3]; [9; 10; 5; 19; 1];
               [9; 10; 6; 18; 2]; [12; 13; 3; 8; 0]; [12; 13; 2; 9; 1];
               [15; 14; 7; 11; 4]; [15; 14; 6; 10; 5]; [16; 19; 1; 12; 0];
               [16; 19; 5; 15; 4]; [17; 18; 2; 13; 3]; [17; 18; 6; 14; 7]] |}.

Definition Icosahedron_get_geometry : Geometry :=
  {| vertices := [(0, 1, 1.618); (0, -1, 1.618); (0, 1, -1.618); (0, -1, -1.618);
                  (1.618, 0, 1); (1.618, 0, -1); (-1.618, 0, 1); (-1.618, 0, -1);
                  (1, 1.618, 0); (-1, 1.618, 0); (1, -1.618, 0); (-1, -1.618, 0)]%Q;
     edges := [];
     faces := [[0; 1; 4]; [0; 1; 6]; [2; 3; 5]; [2; 3; 7];
               [4; 5; 8]; [4; 5; 10]; [6; 7; 9]; [6; 7; 11];
               [8; 9; 0]; [8; 9; 2]; [10; 11; 1]; [10; 11; 3];
               [0; 4; 8]; [1; 4; 10]; [1; 6; 11]; [0; 6; 9];
               [2; 5; 8]; [3; 5; 10]; [3; 7; 11]; [2; 7; 9]] |}.

(** The geometry of each subclass, as a function of the kind. *)
Definition geometry_for (k : SolidKind) : Geometry :=
  match k with
  | Tetrahedron => Tetrahedron_get_geometry
  | Cube => Cube_get_geometry
  | Octahedron => Octahedron_get_geometry
  | Dodecahedron => Dodecahedron_get_geometry
  | Icosahedron => Icosahedron_get_geometry
  end.

(** [solid.get_geometry()], dispatched on the class of [solid]; the base
    class raises. *)
Definition get_geometry (self : PlatonicSolid) : result Geometry :=
  match self with
  | BaseSolid => Raise (NotImplementedError "Must be implemented in subclasses")
  | SubSolid k => Ok (geometry_for k)
  end.

(** The dictionary [solid_classes]: its entries in the order of the
    source, and the map they define. *)
Definition solid_classes_items : list (string * SolidKind) :=
  [("TETRAHEDRON", Tetrahedron); ("CUBE", Cube);
   ("OCTAHEDRON", Octahedron); ("DODECAHEDRON", Dodecahedron);
   ("ICOSAHEDRON", Icosahedron)].

Definition solid_classes : gmap string SolidKind :=
  list_to_map solid_classes_items.

(** The identifiers offered by the enumeration [shape_type],
    [solid_classes.keys()]. *)
Definition shape_type_items : list string := solid_classes_items.*1.

(** [OBJECT_OT_generate_platonic.execute(self, context)].  The argument
    [context] gives the operator the property group
    [context.scene.platonic_props], here [props], which it only reads, and
    the host data, here the state of [M]. *)
Module OBJECT_OT_generate_platonic.

Definition execute (props : PlatonicSolidProperties) : M (gset string) :=
  (if clear_before_create props
   then bpy.ops_object_select_all_SELECT ;; bpy.ops_object_delete
   else mret tt) ;;
  let solid_class := default Tetrahedron (solid_classes !! shape_type props) in
  let solid : PlatonicSolid := SubSolid solid_class in
  g ← lift (get_geometry solid);
  mesh ← SolidBuilder.create_mesh (shape_type props)
           (vertices g) (edges g) (faces g);
  obj ← bpy.data_objects_new (shape_type props) mesh;
  bpy.collection_objects_link obj ;;
  bpy.update_object obj (bpy.set_scale (scale props, scale props, scale props)) ;;
  mat ← SolidBuilder.create_material (shape_type props +:+ "_Material")
          (color props);
  assign_material obj mat ;;
  bpy.update_object obj (bpy.set_selected true) ;;
  bpy.set_active obj ;;
  mret FINISHED.

End OBJECT_OT_generate_platonic.

End V2.

(** ** The program [old versions/v1.3.py] *)

Module V1_3.

Definition Tetrahedron_get_geometry : Geometry :=
  {| vertices := [(1.633324, 0.943, -0.666);
                  (0.000204, -1.884353, -0.666);
                  (-1.631796, 0.942353, -0.666);
                  (0.0, 0.0, 2)]%Q;
     edges := [];
     faces := [[0; 1; 2]; [0; 1; 3]; [0; 2; 3]; [1; 2; 3]] |}.

Definition Cube_get_geometry : Geometry :=
  {| vertices := [(1.5, 1.5, 1.5);
                  (1.5, -1.5, 1.5);
                  (-1.5, -1.5, 1.5);
                  (-1.5, 1.5, 1.5);
                  (1.5, 1.5, -1.5);
                  (1.5, -1.5, -1.5);
                  (-1.5, -1.5, -1.5);
                  (-1.5, 1.5, -1.5)]%Q;
     edges := [];
     faces := [[0; 1; 2; 3]; [4; 5; 6; 7]; [0; 4; 5; 1];
               [1; 5; 6; 2]; [2; 6; 7; 3]; [3; 7; 4; 0]] |}.

Definition Octahedron_get_geometry : Geometry :=
  {| vertices := [(0.0, 0.0, -1.5);
                  (-1.5, 0.0, 0.0);
                  (0.0, -1.5, 0.0);
                  (1.5, 0.0, 0.0);
                  (0.0, 1.5, 0.0);
                  (0.0, 0.0, 1.5)]%Q;
     edges := [];
     faces := [[0; 1; 2]; [0; 2; 3]; [0; 3; 4]; [0; 4; 1];
               [5; 1; 2]; [5; 2; 3]; [5; 3; 4]; [5; 4; 1]] |}.

Definition Dodecahedron_get_geometry : Geometry :=
  {| vertices := [(1, 1, 1); (1, -1, 1); (-1, -1, 1); (-1, 1, 1);
                  (1, 1, -1); (1, -1, -1); (-1, -1, -1); (-1, 1, -1);
                  (0, 1.618, 0.618); (0, -1.618, 0.618);
                  (0, -1.618, -0.618); (0, 1.618, -0.618);
                  (0.618, 0, 1.618); (-0.618, 0, 1.618);
                  (-0.618, 0, -1.618); (0.618, 0, -1.618);
                  (1.618, 0.618, 0); (-1.618, 0.618, 0);
                  (-1.618, -0.618, 0); (1.618, -0.618, 0)]%Q;
     edges := [];
     faces := [[8; 11; 4; 16; 0]; [8; 11; 7; 17; 3]; [9; 10; 5; 19; 1];
               [9; 10; 6; 18; 2]; [12; 13; 3; 8; 0]; [12; 13; 2; 9; 1];
               [15; 14; 7; 11; 4]; [15; 14; 6; 10; 5]; [16; 19; 1; 12; 0];
               [16; 19; 5; 15; 4]; [17; 18; 2; 13; 3]; [17; 18; 6; 14; 7]] |}.

Definition Icosahedron_get_geometry : Geometry :=
  {| vertices := [(0, 1, 1.618); (0, -1, 1.618); (0, 1, -1.618); (0, -1, -1.618);
                  (1.618, 0, 1); (1.618, 0, -1); (-1.618, 0, 1); (-1.618, 0, -1);
                  (1, 1.618, 0); (-1, 1.618, 0); (1, -1.618, 0); (-1, -1.618, 0)]%Q;
     edges := [];
     faces := [[0; 1; 4]; [0; 1; 6]; [2; 3; 5]; [2; 3; 7];
               [4; 5; 8]; [4; 5; 10]; [6; 7; 9]; [6; 7; 11];
               [8; 9; 0]; [8; 9; 2]; [10; 11; 1]; [10; 11; 3];
               [0; 4; 8]; [1; 4; 10]; [1; 6; 11]; [0; 6; 9];
               [2; 5; 8]; [3; 5; 10]; [3; 7; 11]; [2; 7; 9]] |}.

Definition geometry_for (k : SolidKind) : Geometry :=
  match k with
  | Tetrahedron => Tetrahedron_get_geometry
  | Cube => Cube_get_geometry
  | Octahedron => Octahedron_get_geometry
  | Dodecahedron => Dodecahedron_get_geometry
  | Icosahedron => Icosahedron_get_geometry
  end.

Definition get_geometry (self : PlatonicSolid) : result Geometry :=
  match self with
  | BaseSolid => Raise (NotImplementedError "Must be implemented in subclasses")
  | SubSolid k => Ok (geometry_for k)
  end.

Definition solid_classes_items : list (string * SolidKind) :=
  [("TETRAHEDRON", Tetrahedron); ("CUBE", Cube);
   ("OCTAHEDRON", Octahedron); ("DODECAHEDRON", Dodecahedron);
   ("ICOSAHEDRON", Icosahedron)].

Definition solid_classes : gmap string SolidKind :=
  list_to_map solid_classes_items.

(** The identifiers offered by the enumeration [shape_type],
    [solid_classes.keys()]. *)
Definition shape_type_items : list string := solid_classes_items.*1.

(** [SolidBuilder.add_object(name, solid, color, scale, location)]. *)
Definition add_object (name : string) (solid : PlatonicSolid) (c : Color)
    (s : Q) (location : Vector3) : M nat :=
  g ← lift (get_geometry solid);
  mesh ← SolidBuilder.create_mesh name (vertices g) (edges g) (faces g);
  obj ← bpy.data_objects_new name mesh;
  bpy.update_object obj (bpy.set_location location) ;;
  bpy.update_object obj (bpy.set_scale (s, s, s)) ;;
  mat ← SolidBuilder.create_material (name +:+ "_Material") c;
  assign_material obj mat ;;
  bpy.collection_objects_link obj ;;
  bpy.update_object obj (bpy.set_selected true) ;;
  mret obj.

Module OBJECT_OT_generate_platonic.

Definition execute (props : PlatonicSolidProperties) : M (gset string) :=
  (if clear_before_create props
   then bpy.ops_object_select_all_SELECT ;; bpy.ops_object_delete
   else mret tt) ;;
  let solid_class := default Tetrahedron (solid_classes !! shape_type props) in
  let solid : PlatonicSolid := SubSolid solid_class in
  add_object (shape_type props) solid (color props) (scale props) (0, 0, 0)%Q ;;
  mret FINISHED.

End OBJECT_OT_generate_platonic.

Module OBJECT_OT_generate_template1.

Definition template_data : list (string * PlatonicSolid * Vector3) :=
  [("Tetrahedron", SubSolid Tetrahedron, (0, 0, 0)%Q);
   ("Cube", SubSolid Cube, (4, 0, 0)%Q);
   ("Octahedron", SubSolid Octahedron, (-4, 0, 0)%Q);
   ("Dodecahedron", SubSolid Dodecahedron, (8, 0, 0)%Q);
   ("Icosahedron", SubSolid Icosahedron, (-8, 0, 0)%Q)].

Definition execute (props : PlatonicSolidProperties) : M (gset string) :=
  (if clear_before_create props
   then bpy.ops_object_select_all_SELECT ;; bpy.ops_object_delete
   else mret tt) ;;
  for_each template_data (λ '(name, solid, location),
    add_object name solid (color props) (scale props) location ;; mret tt) ;;
  mret FINISHED.

End OBJECT_OT_generate_template1.

End V1_3.

(** ** The geometry function of [old versions/v1.1.py] *)

Module V1_1.

(** [generate_geometry(name)]: the three lists start empty and a [match]
    statement without a default case fills them. *)
Definition generate_geometry (name : string) : Geometry :=
  if String.eqb name "TETRAHEDRON" then
    {| vertices := [(0.943, 0, -0.333); (-0.471, -0.816, -0.333);
                    (-0.471, 0.816, -0.333); (0, 0, 1)]%Q;
       edges := [];
       faces := [[0; 1; 2]; [0; 1; 3]; [0; 2; 3]; [1; 2; 3]] |}
  else if String.eqb name "CUBE" then
    {| vertices := [(1, 1, 1); (1, -1, 1); (-1, -1, 1); (-1, 1, 1);
                    (1, 1, -1); (1, -1, -1); (-1, -1, -1); (-1, 1, -1)]%Q;
       edges := [];
       faces := [[0; 1; 2; 3]; [0; 1; 5; 4]; [1; 2; 6; 5];
                 [2; 3; 7; 6]; [3; 0; 4; 7]; [4; 5; 6; 7]] |}
  else if String.eqb name "OCTAHEDRON" then
    {| vertices := [(0, 0, -1); (-1, 0, 0); (0, -1, 0);
                    (1, 0, 0); (0, 1, 0); (0, 0, 1)]%Q;
       edges := [];
       faces := [[0; 1; 2]; [0; 2; 3]; [0; 3; 4]; [0; 4; 1];
                 [5; 1; 2]; [5; 2; 3]; [5; 3; 4]; [5; 4; 1]] |}
  else if String.eqb name "DODECAHEDRON" then
    {| vertices := [(1, 1, 1); (1, -1, 1); (-1, -1, 1); (-1, 1, 1);
                    (1, 1, -1); (1, -1, -1); (-1, -1, -1); (-1, 1, -1);
                    (0, 1.618, 0.618); (0, -1.618, 0.618);
                    (0, -1.618, -0.618); (0, 1.618, -0.618);
                    (0.618, 0, 1.618); (-0.618, 0, 1.618);
                    (-0.618, 0, -1.618); (0.618, 0, -1.618);
                    (1.618, 0.618, 0); (-1.618, 0.618, 0);
                    (-1.618, -0.618, 0); (1.618, -0.618, 0)]%Q;
       edges := [];
       faces := [[8; 11; 4; 16; 0]; [8; 11; 7; 17; 3]; [9; 10; 5; 19; 1];
                 [9; 10; 6; 18; 2]; [12; 13; 3; 8; 0]; [12; 13; 2; 9; 1];
                 [15; 14; 7; 11; 4]; [15; 14; 6; 10; 5]; [16; 19; 1; 12; 0];
                 [16; 19; 5; 15; 4]; [17; 18; 2; 13; 3]; [17; 18; 6; 14; 7]] |}
  else if String.eqb name "ICOSAHEDRON" then
    {| vertices := [(0, 1, 1.618); (0, -1, 1.618); (0, 1, -1.618); (0, -1, -1.618);
                    (1.618, 0, 1); (1.618, 0, -1); (-1.618, 0, 1); (-1.618, 0, -1);
                    (1, 1.618, 0); (-1, 1.618, 0); (1, -1.618, 0); (-1, -1.618, 0)]%Q;
       edges := [];
       faces := [[0; 1; 4]; [0; 1; 6]; [2; 3; 5]; [2; 3; 7];
                 [4; 5; 8]; [4; 5; 10]; [6; 7; 9]; [6; 7; 11];
                 [8; 9; 0]; [8; 9; 2]; [10; 11; 1]; [10; 11; 3];
                 [0; 4; 8]; [1; 4; 10]; [1; 6; 11]; [0; 6; 9];
                 [2; 5; 8]; [3; 5; 10]; [3; 7; 11]; [2; 7; 9]] |}
  else
    {| vertices := []; edges := []; faces := [] |}.

End V1_1.

(** ** Vocabulary of the properties *)

(** The numbers of vertices and of faces each solid is expected to have. *)
Definition expected_counts (k : SolidKind) : nat * nat :=
  match k with
  | Tetrahedron => (4, 4)
  | Cube => (8, 6)
  | Octahedron => (6, 8)
  | Dodecahedron => (20, 12)
  | Icosahedron => (12, 20)
  end.

(** The number of pairwise distinct indices of a face. *)
Definition distinct_indices (f : Face) : nat := length (remove_dups f).

(** A face over [n] vertices: every index is below [n] and at least three
    of them are pairwise distinct. *)
Definition face_well_formed (n : nat) (f : Face) : Prop :=
  Forall (λ i, (i < n)%nat) f ∧ (3 ≤ distinct_indices f)%nat.

(** The index set of a face. *)
Definition face_set (f : Face) : gset nat := list_to_set f.

(** The pairs of indices adjacent in the cyclic traversal of a face, the
    last index being followed by the first one. *)
Definition cyclic_pairs (f : Face) : list Edge := zip f (rotate 1 f).

Definition undirected (e : Edge) : Edge := (e.1 `min` e.2, e.1 `max` e.2).

Definition face_edges (f : Face) : list Edge := undirected <$> cyclic_pairs f.

(** The undirected edges of a list of faces, each listed once. *)
Definition mesh_edges (fs : list Face) : list Edge :=
  remove_dups (fs ≫= face_edges).

(** The faces that have [e] among their edges, in table order. *)
Definition faces_on (e : Edge) (fs : list Face) : list Face :=
  filter (λ f, e ∈ face_edges f) fs.

(** The edge [e] lies on exactly two faces, and these differ. *)
Definition on_two_faces (fs : list Face) (e : Edge) : Prop :=
  length (faces_on e fs) = 2 ∧ NoDup (faces_on e fs).

Definition closed_surface (fs : list Face) : Prop :=
  Forall (on_two_faces fs) (mesh_edges fs).

(** [V - E + F] of a geometry, over the integers. *)
Definition euler_characteristic (g : Geometry) : Z :=
  (Z.of_nat (length (vertices g)) - Z.of_nat (length (mesh_edges (faces g)))
   + Z.of_nat (length (faces g)))%Z.

Inductive Axis : Type := AxisX | AxisY | AxisZ.

Definition coord (a : Axis) (v : Vector3) : Q :=
  let '(x, y, z) := v in
  match a with
  | AxisX => x
  | AxisY => y
  | AxisZ => z
  end.





(** The vertex [v] is the only index below [n] that [f] leaves out. *)
Definition omits_exactly (n : nat) (f : Face) (v : nat) : Prop :=
  (v < n)%nat ∧ (v ∉ f) ∧ Forall (λ w, w = v ∨ w ∈ f) (seq 0 n).

(** Uniform scaling of a point, and closeness of points up to a
    tolerance, as the description of the generator words them. *)
Definition scale_vector (s : Q) (v : Vector3) : Vector3 :=
  let '(x, y, z) := v in (s * x, s * y, s * z)%Q.

Definition within (eps a b : Q) : Prop := (Qabs (a - b) <= eps)%Q.

Definition vector_within (eps : Q) (u v : Vector3) : Prop :=
  within eps (coord AxisX u) (coord AxisX v) ∧
  within eps (coord AxisY u) (coord AxisY v) ∧
  within eps (coord AxisZ u) (coord AxisZ v).

(** The key under which [solid_classes] registers a kind. *)
Definition kind_key (k : SolidKind) : string :=
  match k with
  | Tetrahedron => "TETRAHEDRON"
  | Cube => "CUBE"
  | Octahedron => "OCTAHEDRON"
  | Dodecahedron => "DODECAHEDRON"
  | Icosahedron => "ICOSAHEDRON"
  end.

(** The host data after the statement
    [if props.clear_before_create: select_all(action='SELECT'); delete(...)]
    that opens the generating operators. *)
Definition cleared (b : bool) (st : bpy_state) : bpy_state :=
  if b then bpy.delete_selected (bpy.select_all st) else st.

(** A host with no objects and no materials. *)
Definition empty_state : bpy_state :=
  {| data_objects := ∅; next_object := 0; data_materials := ∅;
     collection_objects := []; active_object := None |}.

(** The object an operator builds for the geometry [g]: named [name],
    with the single material slot [name_Material], selected. *)
Definition built_object (name : string) (g : Geometry) (s : Q)
    (loc : Vector3) : Object :=
  {| obj_name := name;
     obj_data := {| mesh_name := name; mesh_geometry := g;
                    mesh_materials := [name +:+ "_Material"] |};
     obj_location := loc; obj_scale := (s, s, s); obj_selected := true |}.

(** The host data once that object is stored, linked and given its
    material; [act] tells whether it also becomes the active object. *)
Definition with_built (name : string) (g : Geometry) (c : Color) (s : Q)
    (loc : Vector3) (act : bool) (st : bpy_state) : bpy_state :=
  {| data_objects :=
       <[next_object st := built_object name g s loc]> (data_objects st);
     next_object := S (next_object st);
     data_materials :=
       <[name +:+ "_Material" := {| diffuse_color := c |}]> (data_materials st);
     collection_objects := (collection_objects st ++ [next_object st])%list;
     active_object := if act then Some (next_object st) else active_object st |}.

(** The kinds of the template in their order, each with its translation
    along the first axis. *)
Definition layout : list (SolidKind * Q) :=
  [(Tetrahedron, 0); (Cube, 4); (Octahedron, -4);
   (Dodecahedron, 8); (Icosahedron, -8)]%Q.

(** The object number [i] of [st] is the solid [kx.1] of version 1.3, moved
    by [kx.2] along the first axis, with uniform scale [s]. *)
Definition placed (st : bpy_state) (s : Q) (i : nat) (kx : SolidKind * Q) : Prop :=
  ∃ o, data_objects st !! i = Some o ∧
       mesh_geometry (obj_data o) = V1_3.geometry_for kx.1 ∧
       obj_location o = (kx.2, 0, 0)%Q ∧
       obj_scale o = (s, s, s).

(** The values the property group can hold: [shape_type] is one of the
    items of the enumeration, and [scale] and every channel of [color] lie
    within the bounds declared for them. *)
Definition props_admitted (p : PlatonicSolidProperties) : Prop :=
  shape_type p ∈ V2.shape_type_items ∧
  fp_admits scale_property (scale p) ∧
  fvp_admits color_property (color p).

(** ** The operators of [old versions/v1.1.py] *)

Definition ascii_upper (a : Ascii.ascii) : Ascii.ascii :=
  let n := Ascii.nat_of_ascii a in
  if (97 <=? n)%nat && (n <=? 122)%nat then Ascii.ascii_of_nat (n - 32) else a.

Definition ascii_lower (a : Ascii.ascii) : Ascii.ascii :=
  let n := Ascii.nat_of_ascii a in
  if (65 <=? n)%nat && (n <=? 90)%nat then Ascii.ascii_of_nat (n + 32) else a.

Fixpoint string_map (f : Ascii.ascii → Ascii.ascii) (s : string) : string :=
  match s with
  | EmptyString => EmptyString
  | String a r => String (f a) (string_map f r)
  end.

(** [str.capitalize()], on the letters of the ASCII alphabet: the first
    character in upper case, the others in lower case. *)
Definition capitalize (s : string) : string :=
  match s with
  | EmptyString => EmptyString
  | String a r => String (ascii_upper a) (string_map ascii_lower r)
  end.

(** [bpy.ops.object.select_all(action='DESELECT')]: no object of the scene
    stays selected. *)
Definition deselect_all (st : bpy_state) : bpy_state :=
  {| data_objects :=
       foldr (alter (bpy.set_selected false)) (data_objects st)
             (collection_objects st);
     next_object := next_object st;
     data_materials := data_materials st;
     collection_objects := collection_objects st;
     active_object := active_object st |}.

Definition ops_object_select_all_DESELECT : M unit := modify deselect_all.

(** ** The remaining operators of [v2.py] and [v1.3.py] *)

(** [context.selected_objects]: the selected objects of the scene, in the
    order of the collection. *)
Definition selected_objects (st : bpy_state) : list nat :=
  filter (λ i, bpy.is_selected (data_objects st) i = true) (collection_objects st).

(** [Change Color] and [Delete Selected] have the same text in both
    versions; [create_material] and the generating operator are those of
    [v2.py]. *)
Module Operators.

Section host.

(** [obj.type] of each object.  The host fixes it when the object is made:
    it is ['MESH'] for the objects the operators of this program make, and
    something else for the cameras, lights and the like of the scene the
    user works in.  Such an object is kept in the store like the others;
    no operator reads its data. *)
Variable obj_type : nat → string.

(** The name the host gives to a new material asked for under [name]:
    [name] itself when it is free, a variant of it otherwise.  The host
    chooses it; its rule is not part of the program. *)
Variable unique_name : string → gmap string Material → string.

(** [bpy.data.materials.new(name=name)], whether or not the name is in
    use. *)
Definition data_materials_new_unique (name : string) : M string :=
  λ st,
    let n := unique_name name (data_materials st) in
    Ok (n, {| data_objects := data_objects st;
              next_object := next_object st;
              data_materials :=
                <[n := {| diffuse_color := (0.8, 0.8, 0.8, 1.0)%Q |}]>
                  (data_materials st);
              collection_objects := collection_objects st;
              active_object := active_object st |}).

(** [SolidBuilder.create_material(name, color)], the new material named by
    the host. *)
Definition create_material (name : string) (c : Color) : M string :=
  found ← bpy.data_materials_get name;
  mat ← match found with
        | Some m => mret m
        | None => data_materials_new_unique name
        end;
  bpy.set_diffuse_color mat c ;;
  mret mat.

(** [obj.data.materials[0]] for the first slot [m]: the material the slot
    holds, [None] when the slot is empty, that is, when the material it
    names is not, or no longer, among [bpy.data.materials]. *)
Definition slot_material (m : string) : M (option string) :=
  gets (λ st, match data_materials st !! m with
              | Some _ => Some m
              | None => None
              end).

(** [mat.diffuse_color = color], where [mat] may be [None]. *)
Definition set_diffuse_color_of (mat : option string) (c : Color) : M unit :=
  match mat with
  | Some m => bpy.set_diffuse_color m c
  | None => λ _, Raise (AttributeError_None "diffuse_color")
  end.

(** The body of the loop of [OBJECT_OT_change_color.execute]. *)
Definition change_color_object (c : Color) (obj : nat) : M unit :=
  if String.eqb (obj_type obj) "MESH" then
    slots ← bpy.obj_data_materials obj;
    mat ← match slots with
          | m :: _ => slot_material m
          | [] => m ← data_materials_new_unique "Updated_Material"; mret (Some m)
          end;
    set_diffuse_color_of mat c ;;
    slots' ← bpy.obj_data_materials obj;
    match slots', mat with
    | [], Some m => bpy.update_object obj (bpy.set_materials [m])
    | _, _ => mret tt
    end
  else mret tt.

End host.

Module OBJECT_OT_generate_platonic.

(** [OBJECT_OT_generate_platonic.execute] of [v2.py], with
    [create_material] as above. *)
Definition execute (unique_name : string → gmap string Material → string)
    (props : PlatonicSolidProperties) : M (gset string) :=
  (if clear_before_create props
   then bpy.ops_object_select_all_SELECT ;; bpy.ops_object_delete
   else mret tt) ;;
  let solid_class :=
    default Tetrahedron (V2.solid_classes !! shape_type props) in
  let solid : PlatonicSolid := SubSolid solid_class in
  g ← lift (V2.get_geometry solid);
  mesh ← SolidBuilder.create_mesh (shape_type props)
           (vertices g) (edges g) (faces g);
  obj ← bpy.data_objects_new (shape_type props) mesh;
  bpy.collection_objects_link obj ;;
  bpy.update_object obj (bpy.set_scale (scale props, scale props, scale props)) ;;
  mat ← create_material unique_name (shape_type props +:+ "_Material")
          (color props);
  assign_material obj mat ;;
  bpy.update_object obj (bpy.set_selected true) ;;
  bpy.set_active obj ;;
  mret FINISHED.

End OBJECT_OT_generate_platonic.

Module OBJECT_OT_change_color.

Definition execute (obj_type : nat → string)
    (unique_name : string → gmap string Material → string)
    (props : PlatonicSolidProperties) : M (gset string) :=
  sel ← gets selected_objects;
  for_each sel (change_color_object obj_type unique_name (color props)) ;;
  mret FINISHED.

End OBJECT_OT_change_color.

Module OBJECT_OT_delete_selected.

Definition execute : M (gset string) :=
  bpy.ops_object_delete ;;
  mret FINISHED.

End OBJECT_OT_delete_selected.

End Operators.

(** The operators of version 1.1.  Its generating operator has no builder
    and no dictionary: it asks [generate_geometry] for the lists, always
    makes a new material, and deselects everything before it selects the
    new object. *)
Module V1_1_operators.

Module OBJECT_OT_generate_platonic.

Definition execute (unique_name : string → gmap string Material → string)
    (props : PlatonicSolidProperties) : M (gset string) :=
  (if clear_before_create props
   then bpy.ops_object_select_all_SELECT ;; bpy.ops_object_delete
   else mret tt) ;;
  let g := V1_1.generate_geometry (shape_type props) in
  let mesh := {| mesh_name := capitalize (shape_type props);
                 mesh_geometry := {| vertices := vertices g; edges := edges g;
                                     faces := faces g |};
                 mesh_materials := [] |} in
  obj ← bpy.data_objects_new (capitalize (shape_type props)) mesh;
  bpy.collection_objects_link obj ;;
  mat ← Operators.data_materials_new_unique unique_name
          (shape_type props +:+ "_Material");
  bpy.set_diffuse_color mat (color props) ;;
  assign_material obj mat ;;
  bpy.update_object obj (bpy.set_scale (scale props, scale props, scale props)) ;;
  ops_object_select_all_DESELECT ;;
  bpy.update_object obj (bpy.set_selected true) ;;
  bpy.set_active obj ;;
  mret FINISHED.

End OBJECT_OT_generate_platonic.

Module OBJECT_OT_clear_scene.

Definition execute : M (gset string) :=
  bpy.ops_object_select_all_SELECT ;;
  bpy.ops_object_delete ;;
  mret FINISHED.

End OBJECT_OT_clear_scene.

End V1_1_operators.

(** ** Vocabulary of the scene properties *)

(** A consistent scene: no object is linked twice, the linked objects are
    exactly the stored ones, their numbers are below the next one to be
    allocated, and every material slot names a stored material. *)
Definition wf_state (st : bpy_state) : Prop :=
  NoDup (collection_objects st) ∧
  dom (data_objects st) = list_to_set (collection_objects st) ∧
  Forall (λ i, (i < next_object st)%nat) (collection_objects st) ∧
  map_Forall (λ _ o, Forall (λ m, is_Some (data_materials st !! m))
                            (mesh_materials (obj_data o)))
             (data_objects st).

#[global] Instance wf_state_dec (st : bpy_state) : Decision (wf_state st).
Proof. unfold wf_state. apply _. Defined.

(** The material in the first slot of an object, and its colour. *)
Definition first_slot (st : bpy_state) (i : nat) : option string :=
  o ← data_objects st !! i; head (mesh_materials (obj_data o)).

Definition object_color (st : bpy_state) (i : nat) : option Color :=
  m ← first_slot st i; mat ← data_materials st !! m; Some (diffuse_color mat).

(** [o'] is [o] but, possibly, for a first material slot added to an
    object that had none. *)
Definition slots_kept (o o' : Object) : Prop :=
  obj_name o' = obj_name o ∧
  mesh_name (obj_data o') = mesh_name (obj_data o) ∧
  mesh_geometry (obj_data o') = mesh_geometry (obj_data o) ∧
  obj_location o' = obj_location o ∧
  obj_scale o' = obj_scale o ∧
  obj_selected o' = obj_selected o ∧
  (mesh_materials (obj_data o) = [] ∨
   mesh_materials (obj_data o') = mesh_materials (obj_data o)).

(** [st'] differs from [st] by colours only: the same objects are linked
    in the same order, each object is kept up to [slots_kept], and every
    material is either as it was or has the colour [c]. *)
Definition recoloured (c : Color) (st st' : bpy_state) : Prop :=
  collection_objects st' = collection_objects st ∧
  next_object st' = next_object st ∧
  active_object st' = active_object st ∧
  (∀ i, option_Forall2 slots_kept (data_objects st !! i) (data_objects st' !! i)) ∧
  (∀ m, data_materials st' !! m = data_materials st !! m ∨
        data_materials st' !! m = Some {| diffuse_color := c |}).

(** A scene of two cubes that share the material [CUBE_Material]; the
    first one is not selected, the second one is. *)
Definition two_cubes : bpy_state :=
  bpy.with_objects (alter (bpy.set_selected false) 0)
    (with_built "CUBE" (V2.geometry_for Cube) (0.8, 0.8, 0.8, 1.0)%Q 1%Q
       (0, 0, 0)%Q true
       (with_built "CUBE" (V2.geometry_for Cube) (0.8, 0.8, 0.8, 1.0)%Q 1%Q
          (0, 0, 0)%Q true empty_state)).

(** A name generator for materials that never renames. *)
Definition same_name (name : string) (_ : gmap string Material) : string := name.

(** A name generator that keeps a free name and appends [.001] to a name
    in use, the first variant the host tries. *)
Definition first_variant (name : string) (m : gmap string Material) : string :=
  match m !! name with
  | Some _ => name +:+ ".001"
  | None => name
  end.

(** A scene in which every object is a mesh. *)
Definition all_meshes (_ : nat) : string := "MESH".

(** The types of a scene whose first object is a camera and whose other
    objects are meshes. *)
Definition camera_first (i : nat) : string :=
  match i with
  | 0 => "CAMERA"
  | _ => "MESH"
  end.

(** The scene [two_cubes] after its materials were removed from
    [bpy.data.materials]: the slots of the cubes are empty. *)
Definition two_cubes_without_materials : bpy_state :=
  {| data_objects := data_objects two_cubes;
     next_object := next_object two_cubes;
     data_materials := ∅;
     collection_objects := collection_objects two_cubes;
     active_object := active_object two_cubes |}.

(** The object the generating operator of version 1.1 makes for the name
    [key], before and after it is selected. *)
Definition made_object (key : string) (mat : string) (s : Q) (sel : bool) : Object :=
  {| obj_name := capitalize key;
     obj_data := {| mesh_name := capitalize key;
                    mesh_geometry := V1_1.generate_geometry key;
                    mesh_materials := [mat] |};
     obj_location := (0, 0, 0)%Q; obj_scale := (s, s, s);
     obj_selected := sel |}.

(** The names the template gives to its five solids. *)
Definition template_names : list string :=
  ["Tetrahedron"; "Cube"; "Octahedron"; "Dodecahedron"; "Icosahedron"].

(** The object number [i] of [st] is called [name] and has the material
    [name_Material] in its only slot. *)
Definition named_with_material (st : bpy_state) (i : nat) (name : string) : Prop :=
  ∃ o, data_objects st !! i = Some o ∧
       obj_name o = name ∧
       mesh_materials (obj_data o) = [name +:+ "_Material"].

(** ** Vocabulary of the metric properties *)

#[global] Instance Qle_dec (x y : Q) : Decision (x <= y)%Q.
Proof. unfold Qle. apply _. Defined.

#[global] Instance within_dec (eps a b : Q) : Decision (within eps a b).
Proof. unfold within. apply _. Defined.

(** The vertex of index [i], the origin when there is none. *)
Definition vertex_at (g : Geometry) (i : nat) : Vector3 :=
  default (0, 0, 0)%Q (vertices g !! i).

Definition vsub (u v : Vector3) : Vector3 :=
  let '(x1, y1, z1) := u in
  let '(x2, y2, z2) := v in
  (x1 - x2, y1 - y2, z1 - z2)%Q.

(** The square of the length of a vector. *)
Definition sq_norm (v : Vector3) : Q :=
  let '(x, y, z) := v in (x * x + y * y + z * z)%Q.

Definition sq_dist (u v : Vector3) : Q := sq_norm (vsub u v).

(** The triple product of three vectors; it vanishes when they lie in one
    plane. *)
Definition det3 (a b c : Vector3) : Q :=
  let '(a1, a2, a3) := a in
  let '(b1, b2, b3) := b in
  let '(c1, c2, c3) := c in
  (a1 * (b2 * c3 - b3 * c2) - a2 * (b1 * c3 - b3 * c1)
   + a3 * (b1 * c2 - b2 * c1))%Q.

(** The square of the distance between the two ends of an edge. *)
Definition edge_sq_length (g : Geometry) (e : Edge) : Q :=
  sq_dist (vertex_at g e.1) (vertex_at g e.2).

(** The pairs [i < j] of indices below [n]. *)
Definition all_pairs (n : nat) : list Edge :=
  i ← seq 0 n; (j ← seq 0 n; (if bool_decide (i < j)%nat then [(i, j)] else [])).

(** The square of the edge length of each solid of [v2.py], and the square
    of the radius of the sphere through its vertices, both to three
    decimals. *)
Definition nominal_edge_sq (k : SolidKind) : Q :=
  match k with
  | Tetrahedron => 2.667
  | Cube => 4
  | Octahedron => 2
  | Dodecahedron => 1.528
  | Icosahedron => 4
  end.

Definition nominal_radius_sq (k : SolidKind) : Q :=
  match k with
  | Tetrahedron => 1
  | Cube => 3
  | Octahedron => 1
  | Dodecahedron => 3
  | Icosahedron => 3.618
  end.

(** Every edge of the mesh has the nominal length, and the edges are
    exactly the pairs of vertices that close to each other. *)
Definition edges_are_nearest_pairs (eps L : Q) (g : Geometry) : Prop :=
  Forall (λ e, within eps (edge_sq_length g e) L) (mesh_edges (faces g)) ∧
  Forall (λ e, e ∈ mesh_edges (faces g) ↔ (edge_sq_length g e <= L + eps)%Q)
         (all_pairs (length (vertices g))).

(** The vertices after the third one lie, up to [eps], in the plane of the
    first three. *)
Definition face_planar (eps : Q) (g : Geometry) (f : Face) : Prop :=
  match f with
  | a :: b :: c :: rest =>
      Forall (λ w, within eps
                     (det3 (vsub (vertex_at g b) (vertex_at g a))
                           (vsub (vertex_at g c) (vertex_at g a))
                           (vsub (vertex_at g w) (vertex_at g a))) 0)
             rest
  | _ => True
  end.

#[global] Instance face_planar_dec (eps : Q) (g : Geometry) (f : Face) :
  Decision (face_planar eps g f).
Proof. destruct f as [|a [|b [|c rest]]]; cbn; apply _. Defined.

(** The pairs of indices of all faces, in the direction of traversal. *)
Definition directed_edges (fs : list Face) : list Edge := fs ≫= cyclic_pairs.

(** The number of indices of every face and the number of faces at every
    vertex, for each solid. *)
Definition schlaefli (k : SolidKind) : nat * nat :=
  match k with
  | Tetrahedron => (3, 3)
  | Cube => (4, 3)
  | Octahedron => (3, 4)
  | Dodecahedron => (5, 3)
  | Icosahedron => (3, 5)
  end.

Definition faces_at (fs : list Face) (v : nat) : list Face :=
  filter (λ f, v ∈ f) fs.

(** ** Registration

    [register] and [unregister] talk to the host's registry of classes and
    to the attributes of [bpy.types.Scene].  The host refuses to register a
    class twice, to unregister a class it does not know and to delete an
    attribute that is not there. *)

Inductive host_exn : Type :=
| ValueError
| RuntimeError
| AttributeError.

Record registry : Type := {
  classes : gset string;
  scene_attributes : gmap string string
}.

Definition step : Type := registry → host_exn + registry.

(** One call after the other; an exception ends the sequence. *)
Definition and_then (f g : step) : step :=
  λ r, match f r with
       | inr r' => g r'
       | inl e => inl e
       end.

Module bpy_utils.

Definition register_class (c : string) : step :=
  λ r, if decide (c ∈ classes r) then inl ValueError
       else inr {| classes := {[ c ]} ∪ classes r;
                   scene_attributes := scene_attributes r |}.

Definition unregister_class (c : string) : step :=
  λ r, if decide (c ∈ classes r)
       then inr {| classes := classes r ∖ {[ c ]};
                   scene_attributes := scene_attributes r |}
       else inl RuntimeError.

(** [bpy.types.Scene.<name> = PointerProperty(type=<c>)]. *)
Definition set_scene_attribute (name c : string) : step :=
  λ r, inr {| classes := classes r;
              scene_attributes := <[name := c]> (scene_attributes r) |}.

(** [del bpy.types.Scene.<name>]. *)
Definition del_scene_attribute (name : string) : step :=
  λ r, match scene_attributes r !! name with
       | Some _ => inr {| classes := classes r;
                          scene_attributes := delete name (scene_attributes r) |}
       | None => inl AttributeError
       end.

End bpy_utils.

Module V2_registration.

Definition register : step :=
  and_then (bpy_utils.register_class "PlatonicSolidProperties")
  (and_then (bpy_utils.set_scene_attribute "platonic_props" "PlatonicSolidProperties")
  (and_then (bpy_utils.register_class "OBJECT_OT_generate_platonic")
  (and_then (bpy_utils.register_class "OBJECT_OT_change_color")
  (and_then (bpy_utils.register_class "OBJECT_OT_delete_selected")
            (bpy_utils.register_class "VIEW3D_PT_platonic_solids"))))).

Definition unregister : step :=
  and_then (bpy_utils.unregister_class "VIEW3D_PT_platonic_solids")
  (and_then (bpy_utils.unregister_class "OBJECT_OT_delete_selected")
  (and_then (bpy_utils.unregister_class "OBJECT_OT_change_color")
  (and_then (bpy_utils.unregister_class "OBJECT_OT_generate_platonic")
  (and_then (bpy_utils.del_scene_attribute "platonic_props")
            (bpy_utils.unregister_class "PlatonicSolidProperties"))))).

(** The classes of the add-on. *)
Definition addon_classes : list string :=
  ["PlatonicSolidProperties"; "OBJECT_OT_generate_platonic";
   "OBJECT_OT_change_color"; "OBJECT_OT_delete_selected";
   "VIEW3D_PT_platonic_solids"].

End V2_registration.

Module V1_3_registration.

Definition register : step :=
  and_then (bpy_utils.register_class "PlatonicSolidProperties")
  (and_then (bpy_utils.set_scene_attribute "platonic_props" "PlatonicSolidProperties")
  (and_then (bpy_utils.register_class "OBJECT_OT_generate_platonic")
  (and_then (bpy_utils.register_class "OBJECT_OT_change_color")
  (and_then (bpy_utils.register_class "OBJECT_OT_delete_selected")
  (and_then (bpy_utils.register_class "OBJECT_OT_generate_template1")
            (bpy_utils.register_class "VIEW3D_PT_platonic_solids")))))).

Definition unregister : step :=
  and_then (bpy_utils.unregister_class "VIEW3D_PT_platonic_solids")
  (and_then (bpy_utils.unregister_class "OBJECT_OT_generate_template1")
  (and_then (bpy_utils.unregister_class "OBJECT_OT_delete_selected")
  (and_then (bpy_utils.unregister_class "OBJECT_OT_change_color")
  (and_then (bpy_utils.unregister_class "OBJECT_OT_generate_platonic")
  (and_then (bpy_utils.del_scene_attribute "platonic_props")
            (bpy_utils.unregister_class "PlatonicSolidProperties")))))).

Definition addon_classes : list string :=
  ["PlatonicSolidProperties"; "OBJECT_OT_generate_platonic";
   "OBJECT_OT_change_color"; "OBJECT_OT_delete_selected";
   "OBJECT_OT_generate_template1"; "VIEW3D_PT_platonic_solids"].

End V1_3_registration.

(** A host that knows none of the classes and has no attribute. *)
Definition empty_registry : registry :=
  {| classes := ∅; scene_attributes := ∅ |}.

(** * Properties of the geometry tables *)

(** C1: for every solid kind, the geometry returned by [get_geometry] has
    the fixed numbers of vertices and faces: tetrahedron 4 and 4, cube 8 and
    6, octahedron 6 and 8, dodecahedron 20 and 12, icosahedron 12 and 20. *)
Theorem geometry_counts (k : SolidKind) :
  ∃ g, V2.get_geometry k = Ok g ∧
       (length (vertices g), length (faces g)) = expected_counts k.
Proof.
  exists (V2.geometry_for k). split; [reflexivity|].
  destruct k; reflexivity.
Qed.

(** The same counts hold for the tables of version 1.3. *)
Lemma geometry_counts_v1_3 (k : SolidKind) :
  (length (vertices (V1_3.geometry_for k)),
   length (faces (V1_3.geometry_for k))) = expected_counts k.
Proof. destruct k; reflexivity. Qed.

(** C2: for every solid kind and every face of its face list, every index
    of the face is below the number of vertices, and the face has at least
    three pairwise distinct indices. *)
Theorem faces_well_formed (k : SolidKind) :
  ∃ g, V2.get_geometry k = Ok g ∧
       Forall (face_well_formed (length (vertices g))) (faces g).
Proof.
  exists (V2.geometry_for k). split; [reflexivity|].
  destruct k; compute_done.
Qed.

(** No face of any table repeats an index. *)
Lemma faces_NoDup (k : SolidKind) :
  Forall (λ f : Face, NoDup f) (faces (V2.geometry_for k)).
Proof. destruct k; compute_done. Qed.



(** The six faces of the cube lie in six different planes. *)
Lemma cube_sides_distinct :
  NoDup (face_set <$> faces V2.Cube_get_geometry).
Proof. compute_done. Qed.

(** In version 1.3 the cube has the same faces over the corners
    [(±1.5, ±1.5, ±1.5)]. *)
Lemma cube_geometry_v1_3 :
  faces V1_3.Cube_get_geometry = faces V2.Cube_get_geometry ∧
  vertices V1_3.Cube_get_geometry
  = (λ v, (1.5 * coord AxisX v, 1.5 * coord AxisY v, 1.5 * coord AxisZ v)%Q)
      <$> vertices V2.Cube_get_geometry.
Proof. split; reflexivity. Qed.

(** C9: the tetrahedron has four vertices and exactly four triangular
    faces, whose index sets are the four three-element subsets of
    [{0, 1, 2, 3}]: each face leaves out exactly one vertex, no two faces
    have the same index set, and every choice of three of the four vertices
    is a face. *)
Theorem tetrahedron_faces :
  ∃ g, V2.get_geometry Tetrahedron = Ok g ∧
       length (vertices g) = 4 ∧
       length (faces g) = 4 ∧
       Forall (λ f, length f = 3 ∧ NoDup f ∧ Forall (λ i, (i < 4)%nat) f ∧
                    ∃ v, omits_exactly 4 f v) (faces g) ∧
       NoDup (face_set <$> faces g) ∧
       ∀ a b c : nat, (a < b)%nat → (b < c)%nat → (c < 4)%nat →
         ∃ f, f ∈ faces g ∧ f ≡ₚ [a; b; c].
Proof.
  exists V2.Tetrahedron_get_geometry. split; [reflexivity|].
  split; [reflexivity|]. split; [reflexivity|].
  cbn [faces V2.Tetrahedron_get_geometry].
  split; [|split].
  - repeat apply Forall_cons_2; try apply Forall_nil_2;
      (split; [reflexivity | split; [compute_done | split; [compute_done |]]]).
    + exists 3. compute_done.
    + exists 2. compute_done.
    + exists 1. compute_done.
    + exists 0. compute_done.
  - compute_done.
  - intros a b c Hab Hbc Hc.
    exists [a; b; c]. split; [|reflexivity].
    destruct c as [|[|[|[|c]]]]; try lia;
      destruct b as [|[|[|b]]]; try lia;
      destruct a as [|[|a]]; try lia; compute_done.
Qed.

(** The vertices 0, 1 and 3 of the tetrahedron span a face. *)
Lemma tetrahedron_faces_witness :
  ∃ f, f ∈ faces V2.Tetrahedron_get_geometry ∧ f ≡ₚ [0; 1; 3].
Proof.
  destruct tetrahedron_faces as (g & Hg & _ & _ & _ & _ & Hall).
  injection Hg as <-.
  apply (Hall 0 1 3); lia.
Defined.

(** * Closed surfaces *)

(** A pair of indices adjacent in the traversal of a face is an edge of the
    mesh. *)
Lemma cyclic_pair_mesh_edge (fs : list Face) (f : Face) (e : Edge) :
  f ∈ fs → e ∈ cyclic_pairs f → undirected e ∈ mesh_edges fs.
Proof.
  intros Hf He. unfold mesh_edges.
  apply elem_of_remove_dups, list_elem_of_bind.
  exists f. split; [|done].
  unfold face_edges. by apply list_elem_of_fmap_2.
Qed.

(** On a closed surface, every pair of indices adjacent in the traversal of
    some face is shared by exactly two faces. *)
Lemma closed_surface_adjacent (fs : list Face) (f : Face) (e : Edge) :
  closed_surface fs → f ∈ fs → e ∈ cyclic_pairs f →
  on_two_faces fs (undirected e).
Proof.
  intros Hclosed Hf He.
  eapply Forall_forall; [exact Hclosed|].
  by eapply cyclic_pair_mesh_edge.
Qed.

(** The numbers of edges of the five tables. *)
Lemma edge_counts (k : SolidKind) :
  length (mesh_edges (faces (V2.geometry_for k)))
  = match k with
    | Tetrahedron => 6
    | Cube | Octahedron => 12
    | Dodecahedron | Icosahedron => 30
    end.
Proof. destruct k; vm_compute; reflexivity. Qed.

(** C10: for every solid kind, every undirected edge of the face list, a
    pair of indices adjacent in the cyclic traversal of some face, lies on
    exactly two distinct faces, and the numbers of vertices, edges and faces
    satisfy [V - E + F = 2]. *)
Theorem solids_closed (k : SolidKind) :
  ∃ g, V2.get_geometry k = Ok g ∧
       Forall (λ f, Forall (λ e, on_two_faces (faces g) (undirected e))
                           (cyclic_pairs f)) (faces g) ∧
       euler_characteristic g = 2%Z.
Proof.
  exists (V2.geometry_for k). split; [reflexivity|]. split.
  - assert (Hclosed : closed_surface (faces (V2.geometry_for k)))
      by (destruct k; compute_done).
    apply Forall_forall; intros f Hf.
    apply Forall_forall; intros e He.
    by eapply closed_surface_adjacent.
  - destruct k; vm_compute; reflexivity.
Qed.

(** * Running the operators *)

Lemma Geometry_eta (g : Geometry) :
  {| vertices := vertices g; edges := edges g; faces := faces g |} = g.
Proof. by destruct g. Qed.

(** Overwriting a stored value is an insertion. *)
Lemma alter_const_insert {K A} `{Countable K} (m : gmap K A) (k : K) (x y : A) :
  m !! k = Some y → alter (λ _, x) k m = <[k := x]> m.
Proof.
  intros Hk. apply map_eq; intros j.
  rewrite lookup_alter, lookup_insert.
  case_decide; subst; [by rewrite Hk | done].
Qed.

(** Unfold the monad and the host primitives, and compute. *)
Local Ltac run_op :=
  unfold mbind, M_bind, mret, M_ret, lift, modify, gets,
    bpy.data_objects_new, bpy.update_object, bpy.with_objects,
    bpy.collection_objects_link, bpy.obj_data_materials, bpy.set_active,
    bpy.data_materials_get, bpy.data_materials_new, bpy.set_diffuse_color,
    SolidBuilder.create_mesh, assign_material;
  cbn.

(** Whether or not a material of that name exists, [create_material]
    leaves one with the given colour, and nothing else changes. *)
Lemma create_material_run (name : string) (c : Color) (st : bpy_state) :
  SolidBuilder.create_material name c st
  = Ok (name,
        {| data_objects := data_objects st;
           next_object := next_object st;
           data_materials :=
             <[name := {| diffuse_color := c |}]> (data_materials st);
           collection_objects := collection_objects st;
           active_object := active_object st |}).
Proof.
  unfold SolidBuilder.create_material. run_op.
  destruct (data_materials st !! name) as [m|] eqn:Hm; run_op.
  - by erewrite alter_const_insert.
  - by rewrite alter_insert_eq.
Qed.

Lemma add_object_run (name : string) (k : SolidKind) (c : Color) (s : Q)
    (loc : Vector3) (st : bpy_state) :
  V1_3.add_object name k c s loc st
  = Ok (next_object st, with_built name (V1_3.geometry_for k) c s loc false st).
Proof.
  unfold V1_3.add_object, V1_3.get_geometry. run_op.
  rewrite create_material_run. run_op.
  rewrite !alter_insert_eq, lookup_insert_eq. cbn.
  rewrite !alter_insert_eq. cbn. rewrite Geometry_eta.
  reflexivity.
Qed.

(** The only exception the program raises itself: the base class has no
    geometry. *)
Lemma add_object_base_raises (name : string) (c : Color) (s : Q)
    (loc : Vector3) (st : bpy_state) :
  raises (V1_3.add_object name BaseSolid c s loc st).
Proof. eexists. reflexivity. Qed.

Lemma execute_run (p : PlatonicSolidProperties) (st : bpy_state) :
  V2.OBJECT_OT_generate_platonic.execute p st
  = Ok (FINISHED,
        with_built (shape_type p)
          (V2.geometry_for (default Tetrahedron (V2.solid_classes !! shape_type p)))
          (color p) (scale p) (0, 0, 0)%Q true
          (cleared (clear_before_create p) st)).
Proof.
  unfold V2.OBJECT_OT_generate_platonic.execute, V2.get_geometry, cleared.
  destruct (clear_before_create p); run_op.
  all: rewrite create_material_run; run_op.
  all: rewrite !alter_insert_eq, ?lookup_insert_eq; cbn.
  all: rewrite !alter_insert_eq; cbn; rewrite Geometry_eta.
  all: reflexivity.
Qed.

Lemma execute_run_v1_3 (p : PlatonicSolidProperties) (st : bpy_state) :
  V1_3.OBJECT_OT_generate_platonic.execute p st
  = Ok (FINISHED,
        with_built (shape_type p)
          (V1_3.geometry_for (default Tetrahedron (V1_3.solid_classes !! shape_type p)))
          (color p) (scale p) (0, 0, 0)%Q false
          (cleared (clear_before_create p) st)).
Proof.
  unfold V1_3.OBJECT_OT_generate_platonic.execute, cleared.
  destruct (clear_before_create p).
  all: unfold bpy.ops_object_select_all_SELECT, bpy.ops_object_delete,
         mbind, M_bind, mret, M_ret, modify.
  all: cbv beta iota; rewrite add_object_run; reflexivity.
Qed.

Lemma template_run (p : PlatonicSolidProperties) (st : bpy_state) :
  V1_3.OBJECT_OT_generate_template1.execute p st
  = Ok (FINISHED,
        foldl (λ st' '(name, k, x),
                 with_built name (V1_3.geometry_for k) (color p) (scale p)
                            (x, 0, 0)%Q false st')
              (cleared (clear_before_create p) st)
              [("Tetrahedron", Tetrahedron, 0%Q); ("Cube", Cube, 4%Q);
               ("Octahedron", Octahedron, (-4)%Q);
               ("Dodecahedron", Dodecahedron, 8%Q);
               ("Icosahedron", Icosahedron, (-8)%Q)]).
Proof.
  unfold V1_3.OBJECT_OT_generate_template1.execute, cleared.
  unfold V1_3.OBJECT_OT_generate_template1.template_data, for_each.
  destruct (clear_before_create p).
  all: unfold bpy.ops_object_select_all_SELECT, bpy.ops_object_delete,
         mbind, M_bind, mret, M_ret, modify.
  all: cbv beta iota.
  all: repeat (rewrite add_object_run; cbv beta iota).
  all: reflexivity.
Qed.

(** A loop whose body always returns, returns. *)
Lemma for_each_returns {A} (l : list A) (body : A → M unit) (st : bpy_state) :
  (∀ x st1, ∃ st2, body x st1 = Ok (tt, st2)) →
  ∃ st', for_each l body st = Ok (tt, st').
Proof.
  intros Hbody. revert st.
  induction l as [|x l IH]; intros st; cbn [for_each].
  - by exists st.
  - destruct (Hbody x st) as [st2 Hx].
    unfold mbind, M_bind. rewrite Hx. apply IH.
Qed.

Lemma next_object_cleared (b : bool) (st : bpy_state) :
  next_object (cleared b st) = next_object st.
Proof. by destruct b. Qed.

(** The dictionary has exactly the five keys of [kind_key]. *)
Lemma solid_classes_lookup (key : string) (k : SolidKind) :
  V2.solid_classes !! key = Some k ↔ key = kind_key k.
Proof.
  split.
  - intros Hk. apply elem_of_list_to_map_2 in Hk.
    repeat (apply elem_of_cons in Hk as [Hk|Hk]; [by inversion Hk|]).
    by apply elem_of_nil in Hk.
  - intros ->. by destruct k.
Qed.

(** The enumeration [shape_type] offers exactly the keys of the
    dictionary. *)
Lemma shape_type_items_keys (key : string) :
  key ∈ V2.shape_type_items ↔ is_Some (V2.solid_classes !! key).
Proof.
  unfold V2.shape_type_items, V2.solid_classes. split.
  - intros Hkey. apply list_elem_of_fmap in Hkey as ([key' k] & -> & Hin).
    exists k. apply elem_of_list_to_map_1; [compute_done | done].
  - intros [k Hk]. apply elem_of_list_to_map_2 in Hk.
    apply list_elem_of_fmap. by exists (key, k).
Qed.

(** Find, in a host state built by [with_built], the object stored under a
    given number. *)
Local Ltac find_built :=
  unfold with_built; cbn [data_objects next_object];
  repeat (rewrite lookup_insert_ne by lia);
  apply lookup_insert_eq.

(** * Generation *)

(** The properties set for the kind [k], scale [s] and colour [c]. *)
Local Abbreviation props_of k s c b :=
  {| shape_type := kind_key k; color := c; scale := s;
     clear_before_create := b |}.

(** C3, as amended: for every solid kind and every scale [s], generation
    stores the table's vertices unchanged: the mesh of the new object has
    exactly the vertices, edges and faces of the table, and [s] is recorded
    as the uniform scale [(s, s, s)] of the object.  At scale 1 the object
    has the table's geometry and unit scale. *)
Theorem generate_keeps_table_geometry (k : SolidKind) (s : Q) (c : Color)
    (b : bool) (st : bpy_state) :
  ∃ st' o,
    V2.OBJECT_OT_generate_platonic.execute (props_of k s c b) st
    = Ok (FINISHED, st') ∧
    data_objects st' !! next_object st = Some o ∧
    mesh_geometry (obj_data o) = V2.geometry_for k ∧
    obj_scale o = (s, s, s).
Proof.
  eexists _, _. split; [apply execute_run|].
  cbn [shape_type color scale clear_before_create].
  replace (V2.solid_classes !! kind_key k) with (Some k)
    by (symmetry; by apply solid_classes_lookup).
  rewrite <- (next_object_cleared b st).
  split; [find_built|]. split; reflexivity.
Qed.

(** C3 as stated fails: generated at scale 2, the cube keeps the vertices
    [(±1, ±1, ±1)], which are not within [1e-6] of the doubled ones. *)
Lemma generate_does_not_scale_vertices :
  ∃ st' o,
    V2.OBJECT_OT_generate_platonic.execute
      (props_of Cube 2%Q (0.8, 0.8, 0.8, 1.0)%Q false) empty_state
    = Ok (FINISHED, st') ∧
    data_objects st' !! 0 = Some o ∧
    ¬ Forall2 (vector_within 1e-6)
        (vertices (mesh_geometry (obj_data o)))
        (scale_vector 2 <$> vertices (V2.geometry_for Cube)).
Proof.
  eexists _, _. split; [apply execute_run|].
  split; [reflexivity|].
  intros Hclose. apply Forall2_cons_1 in Hclose as [(Hx & _ & _) _].
  vm_compute in Hx. by apply Hx.
Qed.

(** Version 1.3 builds every object the same way: [add_object] stores the
    table's geometry and records scale and location on the object. *)
Lemma add_object_keeps_table_geometry (name : string) (k : SolidKind)
    (c : Color) (s : Q) (loc : Vector3) (st : bpy_state) :
  ∃ st' o,
    V1_3.add_object name k c s loc st = Ok (next_object st, st') ∧
    data_objects st' !! next_object st = Some o ∧
    mesh_geometry (obj_data o) = V1_3.geometry_for k ∧
    obj_scale o = (s, s, s) ∧
    obj_location o = loc ∧
    data_materials st' !! (name +:+ "_Material") = Some {| diffuse_color := c |}.
Proof.
  eexists _, _. split; [apply add_object_run|].
  split; [find_built|]. repeat split.
  apply lookup_insert_eq.
Qed.

(** Applied by the host, the scale recorded on the generated object
    multiplies every vertex of the table by [s]. *)
Lemma generated_scale_applied (k : SolidKind) (s : Q) :
  bpy.apply_scale (s, s, s) <$> vertices (V2.geometry_for k)
  = scale_vector s <$> vertices (V2.geometry_for k).
Proof. apply list_fmap_ext. by intros _ [[x y] z] _. Qed.

(** Version 1.1 has no dictionary: for a name that is not one of the five
    keys, [generate_geometry] leaves its three lists empty. *)
Lemma unknown_kind_empty_v1_1 (name : string) :
  V2.solid_classes !! name = None →
  V1_1.generate_geometry name = {| vertices := []; edges := []; faces := [] |}.
Proof.
  intros Hname. unfold V1_1.generate_geometry.
  destruct (String.eqb_spec name "TETRAHEDRON") as [->|_]; [by vm_compute in Hname|].
  destruct (String.eqb_spec name "CUBE") as [->|_]; [by vm_compute in Hname|].
  destruct (String.eqb_spec name "OCTAHEDRON") as [->|_]; [by vm_compute in Hname|].
  destruct (String.eqb_spec name "DODECAHEDRON") as [->|_]; [by vm_compute in Hname|].
  destruct (String.eqb_spec name "ICOSAHEDRON") as [->|_]; [by vm_compute in Hname|].
  reflexivity.
Qed.

(** Version 1.1 has the tables of version 2, but for the order and the
    direction of traversal of the cube's faces. *)
Lemma geometry_v1_1 (k : SolidKind) :
  vertices (V1_1.generate_geometry (kind_key k)) = vertices (V2.geometry_for k) ∧
  (k ≠ Cube → V1_1.generate_geometry (kind_key k) = V2.geometry_for k) ∧
  face_set <$> faces (V1_1.generate_geometry (kind_key k))
  ≡ₚ face_set <$> faces (V2.geometry_for k).
Proof.
  destruct k; (split; [reflexivity|]); (split; [done|]); try reflexivity.
  apply NoDup_Permutation; [compute_done | compute_done |].
  intros S. split; revert S; apply Forall_forall; compute_done.
Qed.

(** Every item of the enumeration is the key of a kind, in both
    versions. *)
Lemma shape_type_items_kind (key : string) :
  key ∈ V2.shape_type_items → ∃ k, key = kind_key k.
Proof.
  intros Hkey. apply shape_type_items_keys in Hkey as [k Hk].
  exists k. by apply solid_classes_lookup.
Qed.

Lemma shape_type_items_v1_3 : V1_3.shape_type_items = V2.shape_type_items.
Proof. reflexivity. Qed.

Lemma solid_classes_lookup_v1_3 (k : SolidKind) :
  V1_3.solid_classes !! kind_key k = Some k.
Proof. by destruct k. Qed.

(** C4, as amended: the generating operators cannot be given an
    unrecognized kind, because [shape_type] is an enumeration over the five
    keys of [solid_classes].  For each of these keys, in [v2.py] and in
    [v1.3.py], the lookup finds the class registered under the key, and
    generation raises nothing and builds an object named after the key
    with the geometry of that class, so the default [Tetrahedron] of the
    lookup is never taken.  The one exception of the generating code is
    [NotImplementedError], raised by [add_object] for an instance of the
    base class [PlatonicSolid].  In [v1.1.py], [generate_geometry], which
    takes the kind as a plain string, returns three empty lists for every
    name that is not one of the five keys. *)
Theorem enumerated_kind_builds_its_solid :
  (∀ p st, shape_type p ∈ V2.shape_type_items →
     ∃ k st' o,
       shape_type p = kind_key k ∧
       V2.solid_classes !! shape_type p = Some k ∧
       V2.OBJECT_OT_generate_platonic.execute p st = Ok (FINISHED, st') ∧
       data_objects st' !! next_object st = Some o ∧
       obj_name o = shape_type p ∧
       mesh_geometry (obj_data o) = V2.geometry_for k) ∧
  (∀ p st, shape_type p ∈ V1_3.shape_type_items →
     ∃ k st' o,
       shape_type p = kind_key k ∧
       V1_3.solid_classes !! shape_type p = Some k ∧
       V1_3.OBJECT_OT_generate_platonic.execute p st = Ok (FINISHED, st') ∧
       data_objects st' !! next_object st = Some o ∧
       obj_name o = shape_type p ∧
       mesh_geometry (obj_data o) = V1_3.geometry_for k) ∧
  (∀ name c s loc st,
     V1_3.add_object name BaseSolid c s loc st
     = Raise (NotImplementedError "Must be implemented in subclasses")) ∧
  (∀ name, name ∉ V2.shape_type_items →
     V1_1.generate_geometry name
     = {| vertices := []; edges := []; faces := [] |}).
Proof.
  split; [|split; [|split]].
  - intros p st Hkey. destruct (shape_type_items_kind _ Hkey) as [k Hk].
    exists k. eexists _, _. split; [done|].
    split; [by apply solid_classes_lookup|].
    split; [apply execute_run|].
    replace (V2.solid_classes !! shape_type p) with (Some k)
      by (symmetry; by apply solid_classes_lookup).
    rewrite <- (next_object_cleared (clear_before_create p) st).
    split; [find_built|]. split; reflexivity.
  - intros p st Hkey. rewrite shape_type_items_v1_3 in Hkey.
    destruct (shape_type_items_kind _ Hkey) as [k Hk].
    exists k. eexists _, _. split; [done|].
    split; [rewrite Hk; apply solid_classes_lookup_v1_3|].
    split; [apply execute_run_v1_3|].
    replace (V1_3.solid_classes !! shape_type p) with (Some k)
      by (rewrite Hk; symmetry; apply solid_classes_lookup_v1_3).
    rewrite <- (next_object_cleared (clear_before_create p) st).
    split; [find_built|]. split; reflexivity.
  - reflexivity.
  - intros name Hname. apply unknown_kind_empty_v1_1.
    apply eq_None_not_Some. intros Hsome. by apply Hname, shape_type_items_keys.
Qed.

(** The enumeration at its default, "TETRAHEDRON", on a host without
    objects; and [generate_geometry] at the name "SPHERE". *)
Lemma enumerated_kind_builds_its_solid_witness :
  shape_type default_props ∈ V2.shape_type_items ∧
  (∃ k st' o,
     shape_type default_props = kind_key k ∧
     V2.solid_classes !! shape_type default_props = Some k ∧
     V2.OBJECT_OT_generate_platonic.execute default_props empty_state
     = Ok (FINISHED, st') ∧
     data_objects st' !! next_object empty_state = Some o ∧
     obj_name o = shape_type default_props ∧
     mesh_geometry (obj_data o) = V2.geometry_for k) ∧
  ("SPHERE" ∉ V2.shape_type_items) ∧
  V1_1.generate_geometry "SPHERE"
  = {| vertices := []; edges := []; faces := [] |}.
Proof.
  destruct enumerated_kind_builds_its_solid as (Hv2 & _ & _ & Hv11).
  assert (Hitem : shape_type default_props ∈ V2.shape_type_items)
    by (vm_compute; left).
  assert (Hnone : "SPHERE" ∉ V2.shape_type_items) by compute_done.
  split; [exact Hitem|]. split; [exact (Hv2 default_props empty_state Hitem)|].
  split; [exact Hnone | exact (Hv11 "SPHERE" Hnone)].
Defined.

(** C4 as stated fails: "SPHERE" is not one of the five kinds, yet
    [generate_geometry] of [v1.1.py] returns for it, and what it returns is
    the empty solid. *)
Lemma unknown_kind_returns_empty_solid :
  ("SPHERE" ∉ V2.shape_type_items) ∧
  V2.solid_classes !! "SPHERE" = None ∧
  V1_1.generate_geometry "SPHERE"
  = {| vertices := []; edges := []; faces := [] |}.
Proof. split; [compute_done|]. split; reflexivity. Qed.

(** * Scale and colour *)

(** The defaults of the property group lie within the declared bounds and
    name a registered kind. *)
Lemma default_props_admitted : props_admitted default_props.
Proof.
  split; [compute_done|]. split.
  - split; discriminate.
  - repeat apply Forall_cons_2; try apply Forall_nil_2; split; discriminate.
Qed.

(** Every scale within the declared bounds of the scale property is
    positive, and so is its default. *)
Lemma admitted_scale_positive (s : Q) :
  fp_admits scale_property s → (0 < s)%Q.
Proof.
  intros [Hmin _]. eapply Qlt_le_trans; [|exact Hmin]. reflexivity.
Qed.

Lemma default_scale_admitted :
  fp_admits scale_property (fp_default scale_property).
Proof. split; discriminate. Qed.

(** The builder of version 1.3 takes scale and colour as arguments and
    checks neither. *)
Lemma add_object_accepts_everything (name : string) (k : SolidKind)
    (c : Color) (s : Q) (loc : Vector3) (st : bpy_state) :
  ¬ raises (V1_3.add_object name k c s loc st).
Proof. rewrite add_object_run. intros [e He]. discriminate He. Qed.

(** C5, as amended: the code that builds checks no scale.  For every solid
    kind and every scale [s], positive or not, [SolidBuilder.add_object]
    raises nothing and creates the object with the scale [(s, s, s)].  The
    generating operators take the scale from the scale property, declared
    with minimum [0.1], maximum [10.0] and default [1.0]: every value
    within these bounds, the default among them, is positive, no value of
    zero or below lies within them, and for every value the property group
    can hold generation raises nothing and creates an object of that,
    positive, scale. *)
Theorem scale_bounded_by_property_only :
  (∀ name (k : SolidKind) c s loc st,
     ∃ st' o,
       V1_3.add_object name k c s loc st = Ok (next_object st, st') ∧
       data_objects st' !! next_object st = Some o ∧
       obj_scale o = (s, s, s)) ∧
  ((fp_min scale_property == 0.1)%Q ∧ (fp_max scale_property == 10)%Q ∧
   (fp_default scale_property == 1)%Q) ∧
  fp_admits scale_property (fp_default scale_property) ∧
  (∀ s, fp_admits scale_property s → (0 < s)%Q) ∧
  (∀ s, (s <= 0)%Q → ¬ fp_admits scale_property s) ∧
  (∀ p st, props_admitted p →
     ∃ st' o,
       V2.OBJECT_OT_generate_platonic.execute p st = Ok (FINISHED, st') ∧
       data_objects st' !! next_object st = Some o ∧
       obj_scale o = (scale p, scale p, scale p) ∧
       (0 < scale p)%Q).
Proof.
  split; [|split; [|split; [|split; [|split]]]].
  - intros name k c s loc st. eexists _, _.
    split; [apply add_object_run|]. split; [find_built | reflexivity].
  - repeat split.
  - apply default_scale_admitted.
  - apply admitted_scale_positive.
  - intros s Hs Hadm. apply admitted_scale_positive in Hadm.
    by apply Qlt_not_le in Hadm.
  - intros p st (_ & Hscale & _). eexists _, _.
    split; [apply execute_run|].
    rewrite <- (next_object_cleared (clear_before_create p) st).
    split; [find_built|]. split; [reflexivity|].
    by apply admitted_scale_positive.
Qed.

(** The property group at its defaults, on a host without objects; the
    scale 5 lies within the bounds, the scale -1 does not. *)
Lemma scale_bounded_by_property_only_witness :
  props_admitted default_props ∧
  (∃ st' o,
     V2.OBJECT_OT_generate_platonic.execute default_props empty_state
     = Ok (FINISHED, st') ∧
     data_objects st' !! next_object empty_state = Some o ∧
     obj_scale o
     = (scale default_props, scale default_props, scale default_props) ∧
     (0 < scale default_props)%Q) ∧
  fp_admits scale_property 5 ∧ (0 < 5)%Q ∧
  ((-1 <= 0)%Q ∧ ¬ fp_admits scale_property (-1)).
Proof.
  destruct scale_bounded_by_property_only as (_ & _ & _ & Hpos & Hout & Hgen).
  assert (Hadm : props_admitted default_props).
  { split; [vm_compute; left|]. split.
    - split; discriminate.
    - repeat apply Forall_cons_2; try apply Forall_nil_2; split; discriminate. }
  assert (H5 : fp_admits scale_property 5) by (split; discriminate).
  assert (Hneg : (-1 <= 0)%Q) by discriminate.
  split; [exact Hadm|]. split; [exact (Hgen default_props empty_state Hadm)|].
  split; [exact H5|]. split; [exact (Hpos 5%Q H5)|].
  split; [exact Hneg | exact (Hout (-1)%Q Hneg)].
Defined.

(** C5 as stated fails: called with the scale 0, and with the scale -1,
    [add_object] raises nothing and returns the cube it has built, with
    the cube's geometry and that scale. *)
Lemma add_object_nonpositive_scale :
  (∃ st' o,
     V1_3.add_object "Cube" Cube (0.8, 0.8, 0.8, 1.0)%Q 0%Q (0, 0, 0)%Q empty_state
     = Ok (0, st') ∧
     data_objects st' !! 0 = Some o ∧
     mesh_geometry (obj_data o) = V1_3.geometry_for Cube ∧
     obj_scale o = (0%Q, 0%Q, 0%Q)) ∧
  (∃ st' o,
     V1_3.add_object "Cube" Cube (0.8, 0.8, 0.8, 1.0)%Q (-1)%Q (0, 0, 0)%Q empty_state
     = Ok (0, st') ∧
     data_objects st' !! 0 = Some o ∧
     mesh_geometry (obj_data o) = V1_3.geometry_for Cube ∧
     obj_scale o = ((-1)%Q, (-1)%Q, (-1)%Q)) ∧
  ¬ raises (V1_3.add_object "Cube" Cube (0.8, 0.8, 0.8, 1.0)%Q 0%Q
              (0, 0, 0)%Q empty_state) ∧
  ¬ raises (V1_3.add_object "Cube" Cube (0.8, 0.8, 0.8, 1.0)%Q (-1)%Q
              (0, 0, 0)%Q empty_state).
Proof.
  split; [|split; [|split]].
  - eexists _, _. split; [apply add_object_run|]. repeat split.
  - eexists _, _. split; [apply add_object_run|]. repeat split.
  - rewrite add_object_run. intros [e He]. discriminate He.
  - rewrite add_object_run. intros [e He]. discriminate He.
Qed.

(** A colour lies within the bounds of the colour property exactly when
    each of its four channels lies between 0 and 1. *)
Lemma color_admitted_channels (c : Color) :
  fvp_admits color_property c
  ↔ Forall (λ x, (0 <= x)%Q ∧ (x <= 1)%Q) (channels c).
Proof.
  unfold fvp_admits. apply Forall_iff. intros x. cbn [fvp_min fvp_max color_property].
  assert (Hmin : (0.0 == 0)%Q) by reflexivity.
  assert (Hmax : (1.0 == 1)%Q) by reflexivity.
  by rewrite Hmin, Hmax.
Qed.

(** C6, as amended: the code that builds checks no colour.  For every
    colour, with channels in [[0, 1]] or not, [SolidBuilder.create_material]
    raises nothing and leaves the material with exactly that colour, and
    so does [add_object] of [v1.3.py].  The generating operators take the
    colour from the colour property, declared with four channels, minimum
    [0.0], maximum [1.0] and a default within these bounds; for every
    value the property group can hold generation raises nothing, and the
    only material of the new object carries exactly that colour. *)
Theorem color_bounded_by_property_only :
  (∀ name c st,
     ∃ st',
       SolidBuilder.create_material name c st = Ok (name, st') ∧
       data_materials st' !! name = Some {| diffuse_color := c |}) ∧
  (∀ name (k : SolidKind) c s loc st,
     ∃ st',
       V1_3.add_object name k c s loc st = Ok (next_object st, st') ∧
       data_materials st' !! (name +:+ "_Material")
       = Some {| diffuse_color := c |}) ∧
  (fvp_size color_property = 4 ∧ length (fvp_default color_property) = 4 ∧
   (fvp_min color_property == 0)%Q ∧ (fvp_max color_property == 1)%Q) ∧
  fvp_admits color_property (color default_props) ∧
  channels (color default_props) = fvp_default color_property ∧
  (∀ p st, props_admitted p →
     ∃ st' o,
       V2.OBJECT_OT_generate_platonic.execute p st = Ok (FINISHED, st') ∧
       data_objects st' !! next_object st = Some o ∧
       mesh_materials (obj_data o) = [shape_type p +:+ "_Material"] ∧
       data_materials st' !! (shape_type p +:+ "_Material")
       = Some {| diffuse_color := color p |}).
Proof.
  split; [|split; [|split; [|split; [|split]]]].
  - intros name c st. eexists. split; [apply create_material_run|].
    apply lookup_insert_eq.
  - intros name k c s loc st. eexists. split; [apply add_object_run|].
    apply lookup_insert_eq.
  - repeat split.
  - apply default_props_admitted.
  - reflexivity.
  - intros p st _. eexists _, _. split; [apply execute_run|].
    rewrite <- (next_object_cleared (clear_before_create p) st).
    split; [find_built|]. split; [reflexivity|].
    apply lookup_insert_eq.
Qed.

(** The property group at its defaults, on a host without objects. *)
Lemma color_bounded_by_property_only_witness :
  props_admitted default_props ∧
  ∃ st' o,
    V2.OBJECT_OT_generate_platonic.execute default_props empty_state
    = Ok (FINISHED, st') ∧
    data_objects st' !! next_object empty_state = Some o ∧
    mesh_materials (obj_data o) = [shape_type default_props +:+ "_Material"] ∧
    data_materials st' !! (shape_type default_props +:+ "_Material")
    = Some {| diffuse_color := color default_props |}.
Proof.
  destruct color_bounded_by_property_only as (_ & _ & _ & _ & _ & Hgen).
  assert (Hadm : props_admitted default_props).
  { split; [vm_compute; left|]. split.
    - split; discriminate.
    - repeat apply Forall_cons_2; try apply Forall_nil_2; split; discriminate. }
  split; [exact Hadm | exact (Hgen default_props empty_state Hadm)].
Defined.

(** C6 as stated fails: the colour [(1.5, 0, 0, 1)] has a channel above 1,
    yet [create_material], called with it, raises nothing and returns the
    material, which carries that colour; [add_object] does the same. *)
Lemma create_material_out_of_range_color :
  ¬ fvp_admits color_property (1.5, 0, 0, 1)%Q ∧
  (∃ st',
     SolidBuilder.create_material "CUBE_Material" (1.5, 0, 0, 1)%Q empty_state
     = Ok ("CUBE_Material", st') ∧
     data_materials st' !! "CUBE_Material"
     = Some {| diffuse_color := (1.5, 0, 0, 1)%Q |}) ∧
  ¬ raises (SolidBuilder.create_material "CUBE_Material" (1.5, 0, 0, 1)%Q
              empty_state) ∧
  ¬ raises (V1_3.add_object "Cube" Cube (1.5, 0, 0, 1)%Q 1%Q
              (0, 0, 0)%Q empty_state).
Proof.
  split; [|split; [|split]].
  - intros Hadm. apply Forall_cons_1 in Hadm as [[_ Hmax] _].
    vm_compute in Hmax. by apply Hmax.
  - eexists. split; [apply create_material_run|]. reflexivity.
  - rewrite create_material_run. intros [e He]. discriminate He.
  - rewrite add_object_run. intros [e He]. discriminate He.
Qed.

(** * The template *)

(** C7: the template operator builds exactly five objects, one per solid
    kind in the order tetrahedron, cube, octahedron, dodecahedron,
    icosahedron, translated by 0, 4, -4, 8 and -8 along the first axis, and
    these five translations are pairwise different. *)
Theorem template_layout (p : PlatonicSolidProperties) (st : bpy_state) :
  ∃ st',
    V1_3.OBJECT_OT_generate_template1.execute p st = Ok (FINISHED, st') ∧
    collection_objects st'
    = (collection_objects (cleared (clear_before_create p) st)
         ++ seq (next_object st) 5)%list ∧
    Forall2 (placed st' (scale p)) (seq (next_object st) 5) layout ∧
    layout.*1 = all_kinds ∧
    NoDupA Qeq layout.*2.
Proof.
  eexists. split; [apply template_run|].
  rewrite <- (next_object_cleared (clear_before_create p) st).
  generalize (cleared (clear_before_create p) st) as st0. intros st0.
  cbn [foldl].
  split; [|split; [|split]].
  - cbn. rewrite <- !app_assoc. reflexivity.
  - cbn [seq layout].
    repeat apply Forall2_cons_2; try apply Forall2_nil_2.
    all: eexists; split; [find_built | repeat split].
  - reflexivity.
  - cbn. repeat constructor.
    all: rewrite ?InA_cons, InA_nil; intros Hin.
    all: repeat destruct Hin as [Hin|Hin]; try discriminate Hin; done.
Qed.

(** The template passes exactly the five solids, in that order, to the
    builder. *)
Lemma template_data_solids :
  V1_3.OBJECT_OT_generate_template1.template_data.*1.*2 = SubSolid <$> all_kinds ∧
  V1_3.OBJECT_OT_generate_template1.template_data.*2
  = (λ kx : SolidKind * Q, (kx.2, 0%Q, 0%Q)) <$> layout.
Proof. split; reflexivity. Qed.

(** * Consistent scenes *)

(** [wf_state], object by object. *)
Lemma wf_state_pointwise (st : bpy_state) :
  wf_state st ↔
  NoDup (collection_objects st) ∧
  (∀ i, i ∈ collection_objects st ↔ is_Some (data_objects st !! i)) ∧
  (∀ i, i ∈ collection_objects st → (i < next_object st)%nat) ∧
  (∀ i o m, data_objects st !! i = Some o → m ∈ mesh_materials (obj_data o) →
            is_Some (data_materials st !! m)).
Proof.
  unfold wf_state. split.
  - intros (Hnd & Hdom & Hlt & Hmat). split; [done|]. split; [|split].
    + intros i. rewrite <- elem_of_dom, Hdom. by rewrite elem_of_list_to_set.
    + by apply Forall_forall.
    + intros i o m Ho Hm. apply (map_Forall_lookup_1 _ _ _ _ Hmat) in Ho.
      by eapply Forall_forall in Ho.
  - intros (Hnd & Hdom & Hlt & Hmat). split; [done|]. split; [|split].
    + apply set_eq. intros i. by rewrite elem_of_dom, elem_of_list_to_set, Hdom.
    + by apply Forall_forall.
    + apply map_Forall_lookup_2. intros i o Ho. apply Forall_forall.
      intros m Hm. by eapply Hmat.
Qed.

Lemma lookup_foldr_delete {A} (m : gmap nat A) (l : list nat) (i : nat) :
  foldr delete m l !! i = if decide (i ∈ l) then None else m !! i.
Proof.
  induction l as [|a l IH]; cbn [foldr].
  - by rewrite decide_False by apply not_elem_of_nil.
  - destruct (decide (a = i)) as [->|Hne].
    + rewrite lookup_delete_eq. by rewrite decide_True by left.
    + rewrite lookup_delete_ne by done. rewrite IH.
      destruct (decide (i ∈ l)) as [Hin|Hnin].
      * by rewrite (decide_True (P := i ∈ a :: l)) by (by right).
      * rewrite (decide_False (P := i ∈ a :: l)); [done|].
        intros [->|?]%elem_of_cons; done.
Qed.

Lemma lookup_foldr_alter {A} (f : A → A) (m : gmap nat A) (l : list nat) (i : nat) :
  (∀ x, f (f x) = f x) →
  foldr (alter f) m l !! i = (if decide (i ∈ l) then f else id) <$> m !! i.
Proof.
  intros Hf. induction l as [|a l IH]; cbn [foldr].
  - rewrite decide_False by apply not_elem_of_nil. by rewrite option_fmap_id.
  - destruct (decide (a = i)) as [->|Hne].
    + rewrite lookup_alter_eq, IH.
      rewrite (decide_True (P := i ∈ i :: l)) by left.
      destruct (m !! i) as [x|]; [|done]. cbn.
      destruct (decide (i ∈ l)); cbn; by rewrite ?Hf.
    + rewrite lookup_alter_ne by done. rewrite IH.
      destruct (decide (i ∈ l)) as [Hin|Hnin].
      * by rewrite (decide_True (P := i ∈ a :: l)) by (by right).
      * rewrite (decide_False (P := i ∈ a :: l)); [done|].
        intros [->|?]%elem_of_cons; done.
Qed.

Lemma filter_all {A} (P : A → Prop) `{∀ x, Decision (P x)} (l : list A) :
  Forall P l → filter P l = l.
Proof.
  induction 1 as [|x l Hx _ IH]; [done|].
  by rewrite filter_cons_True, IH.
Qed.

Lemma filter_none {A} (P : A → Prop) `{∀ x, Decision (P x)} (l : list A) :
  Forall (λ x, ¬ P x) l → filter P l = [].
Proof.
  induction 1 as [|x l Hx _ IH]; [done|].
  by rewrite filter_cons_False.
Qed.

Lemma filter_ext_in {A} (P Q : A → Prop) `{∀ x, Decision (P x)}
    `{∀ x, Decision (Q x)} (l : list A) :
  Forall (λ x, P x ↔ Q x) l → filter P l = filter Q l.
Proof.
  induction 1 as [|x l Hx _ IH]; [done|].
  rewrite !filter_cons, IH.
  destruct (decide (P x)), (decide (Q x)); tauto.
Qed.

Lemma select_all_lookup (st : bpy_state) (i : nat) :
  data_objects (bpy.select_all st) !! i
  = (if decide (i ∈ collection_objects st) then bpy.set_selected true else id)
      <$> data_objects st !! i.
Proof. unfold bpy.select_all; cbn. by apply lookup_foldr_alter. Qed.

Lemma delete_selected_lookup (st : bpy_state) (i : nat) :
  data_objects (bpy.delete_selected st) !! i
  = if decide (i ∈ selected_objects st) then None else data_objects st !! i.
Proof. unfold bpy.delete_selected; cbn. apply lookup_foldr_delete. Qed.

Lemma wf_select_all (st : bpy_state) : wf_state st → wf_state (bpy.select_all st).
Proof.
  rewrite !wf_state_pointwise. intros (Hnd & Hdom & Hlt & Hmat).
  repeat split;
    cbn [bpy.select_all collection_objects next_object data_materials]; try done.
  - intros Hi. rewrite select_all_lookup. apply fmap_is_Some. by apply Hdom.
  - rewrite select_all_lookup. intros Hi%fmap_is_Some. by apply Hdom.
  - intros i o m. rewrite select_all_lookup. intros Ho Hm.
    destruct (data_objects st !! i) as [o0|] eqn:Ho0; [|done].
    cbn in Ho. injection Ho as <-. apply (Hmat i o0 m Ho0).
    by destruct (decide _).
Qed.

Lemma wf_delete_selected (st : bpy_state) :
  wf_state st → wf_state (bpy.delete_selected st).
Proof.
  rewrite !wf_state_pointwise. intros (Hnd & Hdom & Hlt & Hmat).
  split; [|split; [|split]].
  - cbn. by apply NoDup_filter.
  - intros i. rewrite delete_selected_lookup.
    cbn [bpy.delete_selected collection_objects].
    rewrite list_elem_of_filter.
    destruct (decide _) as [Hsel|Hn].
    + apply list_elem_of_filter in Hsel as [Hs Hin].
      split; [intros [Hs' _]; congruence | by intros []].
    + rewrite <- Hdom. split; [by intros []|]. intros Hin. split; [|done].
      destruct (bpy.is_selected (data_objects st) i) eqn:E; [|done].
      destruct Hn. by apply list_elem_of_filter.
  - intros i. cbn. intros [_ Hin]%list_elem_of_filter. by apply Hlt.
  - intros i o m. rewrite delete_selected_lookup. destruct (decide _); [done|].
    cbn. apply Hmat.
Qed.

Lemma wf_with_built (name : string) (g : Geometry) (c : Color) (s : Q)
    (loc : Vector3) (act : bool) (st : bpy_state) :
  wf_state st → wf_state (with_built name g c s loc act st).
Proof.
  rewrite !wf_state_pointwise. intros (Hnd & Hdom & Hlt & Hmat).
  assert (Hfresh : next_object st ∉ collection_objects st).
  { intros Hin%Hlt. lia. }
  split; [|split; [|split]];
    cbn [with_built collection_objects data_objects next_object data_materials].
  - apply NoDup_app. split; [done|]. split; [|apply NoDup_singleton].
    intros i Hi ->%list_elem_of_singleton. done.
  - intros i.
    rewrite elem_of_app, list_elem_of_singleton, lookup_insert_is_Some, Hdom.
    split.
    + intros [Hi| ->]; [|by left].
      destruct (decide (next_object st = i)); [by left | by right].
    + intros [->|[_ Hi]]; [by right | by left].
  - intros i [Hi| ->%list_elem_of_singleton]%elem_of_app; [|lia].
    apply Hlt in Hi. lia.
  - intros i o m Ho Hm. apply lookup_insert_is_Some.
    destruct (decide (name +:+ "_Material" = m)) as [|Hne]; [by left|right].
    split; [done|].
    apply lookup_insert_Some in Ho as [[_ <-]|[_ Ho]].
    + cbn in Hm. apply list_elem_of_singleton in Hm. congruence.
    + by eapply Hmat.
Qed.

Lemma wf_cleared (b : bool) (st : bpy_state) : wf_state st → wf_state (cleared b st).
Proof.
  destruct b; [|done]. intros Hwf. by apply wf_delete_selected, wf_select_all.
Qed.

Lemma is_selected_select_all (st : bpy_state) (i : nat) :
  wf_state st → i ∈ collection_objects st →
  bpy.is_selected (data_objects (bpy.select_all st)) i = true.
Proof.
  rewrite wf_state_pointwise. intros (_ & Hdom & _) Hi. unfold bpy.is_selected.
  rewrite select_all_lookup, decide_True by done.
  apply Hdom in Hi as [o ->]. done.
Qed.

(** Selecting everything and deleting the selection empties a consistent
    scene. *)
Lemma cleared_true_empty (st : bpy_state) :
  wf_state st →
  collection_objects (cleared true st) = [] ∧ data_objects (cleared true st) = ∅.
Proof.
  intros Hwf. cbn [cleared]. split.
  - cbn [bpy.delete_selected collection_objects]. apply filter_none.
    apply Forall_forall. intros i Hi.
    rewrite (is_selected_select_all st i Hwf Hi). done.
  - apply map_eq. intros i. rewrite delete_selected_lookup, lookup_empty.
    destruct (decide _) as [|Hn]; [done|].
    destruct (data_objects (bpy.select_all st) !! i) as [o|] eqn:Ho; [|done].
    destruct Hn. apply list_elem_of_filter.
    assert (Hin : i ∈ collection_objects st).
    { apply wf_state_pointwise in Hwf as (_ & Hdom & _). apply Hdom.
      rewrite select_all_lookup in Ho.
      apply fmap_Some in Ho as (o0 & -> & _). done. }
    split; [by apply is_selected_select_all | done].
Qed.

(** * Generating and deleting *)

Lemma is_selected_with_built (name : string) (g : Geometry) (c : Color) (s : Q)
    (loc : Vector3) (act : bool) (st : bpy_state) (i : nat) :
  bpy.is_selected (data_objects (with_built name g c s loc act st)) i
  = if decide (i = next_object st) then true
    else bpy.is_selected (data_objects st) i.
Proof.
  unfold bpy.is_selected. cbn [with_built data_objects].
  destruct (decide (i = next_object st)) as [->|Hne].
  - by rewrite lookup_insert_eq.
  - by rewrite lookup_insert_ne.
Qed.

Lemma selected_with_built (name : string) (g : Geometry) (c : Color) (s : Q)
    (loc : Vector3) (act : bool) (st : bpy_state) :
  wf_state st →
  selected_objects (with_built name g c s loc act st)
  = (selected_objects st ++ [next_object st])%list.
Proof.
  intros Hwf. apply wf_state_pointwise in Hwf as (_ & _ & Hlt & _).
  unfold selected_objects. cbn [with_built collection_objects].
  rewrite filter_app. f_equal.
  - apply filter_ext_in, Forall_forall. intros i Hi%Hlt.
    rewrite is_selected_with_built, decide_False by lia. done.
  - rewrite filter_cons_True; [done|].
    by rewrite is_selected_with_built, decide_True.
Qed.

Lemma unselected_with_built (name : string) (g : Geometry) (c : Color) (s : Q)
    (loc : Vector3) (act : bool) (st : bpy_state) :
  wf_state st →
  filter (λ i, bpy.is_selected
                 (data_objects (with_built name g c s loc act st)) i = false)
         (collection_objects (with_built name g c s loc act st))
  = filter (λ i, bpy.is_selected (data_objects st) i = false)
           (collection_objects st).
Proof.
  intros Hwf. apply wf_state_pointwise in Hwf as (_ & _ & Hlt & _).
  cbn [with_built collection_objects]. rewrite filter_app.
  rewrite (filter_cons_False _ (next_object st) []).
  - rewrite filter_nil, app_nil_r.
    apply filter_ext_in, Forall_forall. intros i Hi%Hlt.
    rewrite is_selected_with_built, decide_False by lia. done.
  - by rewrite is_selected_with_built, decide_True.
Qed.

(** Deleting the selection just after an object was built leaves the
    objects that deleting it before would have left. *)
Lemma delete_after_built (name : string) (g : Geometry) (c : Color) (s : Q)
    (loc : Vector3) (act : bool) (st : bpy_state) :
  wf_state st →
  data_objects (bpy.delete_selected (with_built name g c s loc act st))
  = data_objects (bpy.delete_selected st) ∧
  collection_objects (bpy.delete_selected (with_built name g c s loc act st))
  = collection_objects (bpy.delete_selected st).
Proof.
  intros Hwf. split.
  - apply map_eq. intros i. rewrite !delete_selected_lookup.
    rewrite selected_with_built by done.
    apply wf_state_pointwise in Hwf as (_ & Hdom & Hlt & _).
    cbn [with_built data_objects].
    destruct (decide (i = next_object st)) as [->|Hne].
    + rewrite decide_True by (apply elem_of_app; right; by left).
      destruct (decide _) as [|_]; [done|].
      destruct (data_objects st !! next_object st) eqn:Ho; [|done].
      assert (next_object st ∈ collection_objects st) as Hin%Hlt
        by (apply Hdom; by eexists).
      lia.
    + rewrite lookup_insert_ne by done.
      destruct (decide (i ∈ selected_objects st)) as [Hin|Hnin].
      * rewrite decide_True; [done|]. apply elem_of_app. by left.
      * rewrite decide_False; [done|].
        intros [?|?%list_elem_of_singleton]%elem_of_app; done.
  - cbn [bpy.delete_selected collection_objects].
    by apply unselected_with_built.
Qed.

(** With nothing selected, deleting the selection deletes nothing. *)
Lemma delete_nothing (st : bpy_state) :
  selected_objects st = [] →
  data_objects (bpy.delete_selected st) = data_objects st ∧
  collection_objects (bpy.delete_selected st) = collection_objects st.
Proof.
  intros Hsel. split.
  - apply map_eq. intros i. rewrite delete_selected_lookup, Hsel.
    by rewrite decide_False by apply not_elem_of_nil.
  - cbn [bpy.delete_selected collection_objects]. apply filter_all.
    apply Forall_forall. intros i Hi.
    destruct (bpy.is_selected (data_objects st) i) eqn:E; [|done].
    assert (i ∈ selected_objects st) as Hin by (by apply list_elem_of_filter).
    rewrite Hsel in Hin. by apply elem_of_nil in Hin.
Qed.

(** X1: the generating operator of [v2.py] keeps the scene consistent. *)
Theorem generate_keeps_scene_consistent (p : PlatonicSolidProperties)
    (st : bpy_state) :
  wf_state st →
  ∃ st', V2.OBJECT_OT_generate_platonic.execute p st = Ok (FINISHED, st') ∧
         wf_state st'.
Proof.
  intros Hwf. eexists. split; [apply execute_run|].
  by apply wf_with_built, wf_cleared.
Qed.

Lemma generate_keeps_scene_consistent_witness :
  wf_state two_cubes ∧
  ∃ st', V2.OBJECT_OT_generate_platonic.execute default_props two_cubes
         = Ok (FINISHED, st') ∧
         wf_state st'.
Proof.
  assert (Hwf : wf_state two_cubes) by compute_done.
  split; [exact Hwf|].
  apply (generate_keeps_scene_consistent default_props two_cubes Hwf).
Defined.

(** X2: generating never deselects.  After the operator of [v2.py], the
    selected objects are those that were selected once the optional
    clearing was done, followed by the new object. *)
Theorem generate_extends_selection (p : PlatonicSolidProperties)
    (st : bpy_state) :
  wf_state st →
  ∃ st', V2.OBJECT_OT_generate_platonic.execute p st = Ok (FINISHED, st') ∧
         selected_objects st'
         = (selected_objects (cleared (clear_before_create p) st)
              ++ [next_object st])%list ∧
         active_object st' = Some (next_object st).
Proof.
  intros Hwf. eexists. split; [apply execute_run|].
  rewrite selected_with_built by (by apply wf_cleared).
  cbn [with_built active_object].
  by rewrite next_object_cleared.
Qed.

Lemma generate_extends_selection_witness :
  wf_state two_cubes ∧
  ∃ st', V2.OBJECT_OT_generate_platonic.execute default_props two_cubes
         = Ok (FINISHED, st') ∧
         selected_objects st'
         = (selected_objects (cleared (clear_before_create default_props) two_cubes)
              ++ [next_object two_cubes])%list ∧
         active_object st' = Some (next_object two_cubes).
Proof.
  assert (Hwf : wf_state two_cubes) by compute_done.
  split; [exact Hwf|].
  apply (generate_extends_selection default_props two_cubes Hwf).
Defined.

(** X3: with [clear_before_create] set, generating in a consistent scene
    leaves exactly one object, the new one, whatever the scene held. *)
Theorem generate_after_clear_alone (key : string) (c : Color) (s : Q)
    (st : bpy_state) :
  wf_state st →
  ∃ st' o,
    V2.OBJECT_OT_generate_platonic.execute
      {| shape_type := key; color := c; scale := s; clear_before_create := true |} st
    = Ok (FINISHED, st') ∧
    collection_objects st' = [next_object st] ∧
    data_objects st' = {[ next_object st := o ]} ∧
    selected_objects st' = [next_object st].
Proof.
  intros Hwf. eexists _, _. split; [apply execute_run|].
  cbn [shape_type color scale clear_before_create].
  destruct (cleared_true_empty st Hwf) as [Hcoll Hobj].
  split; [|split].
  - cbn [with_built collection_objects]. rewrite Hcoll.
    by rewrite (next_object_cleared true).
  - cbn [with_built data_objects]. rewrite Hobj.
    rewrite (next_object_cleared true). by rewrite insert_empty.
  - rewrite selected_with_built by (by apply wf_cleared).
    unfold selected_objects. rewrite Hcoll.
    by rewrite (next_object_cleared true).
Qed.

Lemma generate_after_clear_alone_witness :
  wf_state two_cubes ∧
  ∃ st' o,
    V2.OBJECT_OT_generate_platonic.execute
      {| shape_type := "OCTAHEDRON"; color := (1, 0, 0, 1)%Q; scale := 2%Q;
         clear_before_create := true |} two_cubes
    = Ok (FINISHED, st') ∧
    collection_objects st' = [next_object two_cubes] ∧
    data_objects st' = {[ next_object two_cubes := o ]} ∧
    selected_objects st' = [next_object two_cubes].
Proof.
  assert (Hwf : wf_state two_cubes) by compute_done.
  split; [exact Hwf|].
  apply (generate_after_clear_alone "OCTAHEDRON" _ _ two_cubes Hwf).
Defined.

(** The state after the five calls of the template. *)
Lemma wf_template (p : PlatonicSolidProperties) (st : bpy_state) :
  wf_state st →
  ∃ st', V1_3.OBJECT_OT_generate_template1.execute p st = Ok (FINISHED, st') ∧
         wf_state st' ∧
         collection_objects st'
         = (collection_objects (cleared (clear_before_create p) st)
              ++ seq (next_object st) 5)%list.
Proof.
  intros Hwf. eexists. split; [apply template_run|].
  apply (wf_cleared (clear_before_create p)) in Hwf.
  rewrite <- (next_object_cleared (clear_before_create p) st).
  revert Hwf. generalize (cleared (clear_before_create p) st) as st0.
  intros st0 Hwf. cbn [foldl]. split.
  - by do 5 apply wf_with_built.
  - cbn. rewrite <- !app_assoc. reflexivity.
Qed.

(** X4: with [clear_before_create] set, the template of [v1.3.py], run in
    a consistent scene, leaves exactly its five solids linked and stored,
    and the scene is consistent. *)
Theorem template_after_clear_alone (p : PlatonicSolidProperties)
    (st : bpy_state) :
  wf_state st →
  clear_before_create p = true →
  ∃ st',
    V1_3.OBJECT_OT_generate_template1.execute p st = Ok (FINISHED, st') ∧
    wf_state st' ∧
    collection_objects st' = seq (next_object st) 5 ∧
    dom (data_objects st') = list_to_set (seq (next_object st) 5).
Proof.
  intros Hwf Hclear.
  destruct (wf_template p st Hwf) as (st' & Hrun & Hwf' & Hcoll).
  exists st'. split; [done|]. split; [done|].
  rewrite Hclear in Hcoll.
  destruct (cleared_true_empty st Hwf) as [Hempty _].
  rewrite Hempty in Hcoll. cbn [app] in Hcoll. split; [done|].
  destruct Hwf' as (_ & Hdom & _). by rewrite Hdom, Hcoll.
Qed.

Lemma template_after_clear_alone_witness :
  wf_state two_cubes ∧
  clear_before_create
    {| shape_type := "TETRAHEDRON"; color := (1, 0, 0, 1)%Q; scale := 2%Q;
       clear_before_create := true |} = true ∧
  ∃ st',
    V1_3.OBJECT_OT_generate_template1.execute
      {| shape_type := "TETRAHEDRON"; color := (1, 0, 0, 1)%Q; scale := 2%Q;
         clear_before_create := true |} two_cubes
    = Ok (FINISHED, st') ∧
    wf_state st' ∧
    collection_objects st' = seq (next_object two_cubes) 5 ∧
    dom (data_objects st') = list_to_set (seq (next_object two_cubes) 5).
Proof.
  assert (Hwf : wf_state two_cubes) by compute_done.
  split; [exact Hwf|]. split; [reflexivity|].
  apply (template_after_clear_alone _ two_cubes Hwf). reflexivity.
Defined.

(** X5: [Delete Selected] removes exactly the selection.  Afterwards no
    object of the scene is selected, the linked objects are the unselected
    ones in their order, every unselected object is stored unchanged, and
    no material is removed, not even those of the deleted objects. *)
Theorem delete_selected_removes_selection (st : bpy_state) :
  ∃ st',
    Operators.OBJECT_OT_delete_selected.execute st = Ok (FINISHED, st') ∧
    selected_objects st' = [] ∧
    collection_objects st'
    = filter (λ i, i ∉ selected_objects st) (collection_objects st) ∧
    Forall (λ i, data_objects st' !! i = data_objects st !! i)
           (collection_objects st') ∧
    Forall (λ i, data_objects st' !! i = None) (selected_objects st) ∧
    data_materials st' = data_materials st.
Proof.
  eexists. split; [reflexivity|].
  assert (Hkeep : ∀ i, bpy.is_selected (data_objects st) i = false →
            data_objects (bpy.delete_selected st) !! i = data_objects st !! i).
  { intros i Hi. rewrite delete_selected_lookup.
    rewrite decide_False; [done|].
    intros [Hs _]%list_elem_of_filter. congruence. }
  split; [|split; [|split; [|split]]].
  - unfold selected_objects. apply filter_none, Forall_forall.
    intros i [Hi _]%list_elem_of_filter.
    assert (bpy.is_selected (data_objects (bpy.delete_selected st)) i = false)
      as ->; [|done].
    unfold bpy.is_selected. rewrite (Hkeep i Hi). exact Hi.
  - cbn [bpy.delete_selected collection_objects].
    apply filter_ext_in, Forall_forall. intros i Hi.
    unfold selected_objects. rewrite list_elem_of_filter.
    destruct (bpy.is_selected (data_objects st) i); split; intros H; try done.
    + destruct H. done.
    + intros [? _]. done.
  - apply Forall_forall. intros i [Hi _]%list_elem_of_filter. by apply Hkeep.
  - apply Forall_forall. intros i Hi. rewrite delete_selected_lookup.
    by rewrite decide_True.
  - reflexivity.
Qed.

(** X6: [Delete Selected] keeps the scene consistent. *)
Theorem delete_selected_keeps_scene_consistent (st : bpy_state) :
  wf_state st →
  ∃ st', Operators.OBJECT_OT_delete_selected.execute st = Ok (FINISHED, st') ∧
         wf_state st'.
Proof.
  intros Hwf. eexists. split; [reflexivity|]. by apply wf_delete_selected.
Qed.

Lemma delete_selected_keeps_scene_consistent_witness :
  wf_state two_cubes ∧
  ∃ st', Operators.OBJECT_OT_delete_selected.execute two_cubes = Ok (FINISHED, st') ∧
         wf_state st'.
Proof.
  assert (Hwf : wf_state two_cubes) by compute_done.
  split; [exact Hwf|].
  apply (delete_selected_keeps_scene_consistent two_cubes Hwf).
Defined.

(** X7: generating and then deleting the selection gives back the objects
    and the collection of a consistent scene in which nothing was selected,
    but not its materials: the material made for the solid stays, and the
    number of the deleted object is not used again. *)
Theorem generate_then_delete (key : string) (c : Color) (s : Q) (st : bpy_state) :
  wf_state st →
  selected_objects st = [] →
  ∃ st1 st2,
    V2.OBJECT_OT_generate_platonic.execute
      {| shape_type := key; color := c; scale := s; clear_before_create := false |} st
    = Ok (FINISHED, st1) ∧
    Operators.OBJECT_OT_delete_selected.execute st1 = Ok (FINISHED, st2) ∧
    data_objects st2 = data_objects st ∧
    collection_objects st2 = collection_objects st ∧
    data_materials st2 !! (key +:+ "_Material") = Some {| diffuse_color := c |} ∧
    next_object st2 = S (next_object st).
Proof.
  intros Hwf Hsel. eexists _, _. split; [apply execute_run|].
  split; [reflexivity|].
  cbn [shape_type color scale clear_before_create cleared].
  destruct (delete_after_built key
              (V2.geometry_for (default Tetrahedron (V2.solid_classes !! key)))
              c s (0, 0, 0)%Q true st Hwf) as [Hobj Hcoll].
  destruct (delete_nothing st Hsel) as [Hobj0 Hcoll0].
  split; [by rewrite Hobj|]. split; [by rewrite Hcoll|].
  split; [apply lookup_insert_eq | reflexivity].
Qed.

Lemma generate_then_delete_witness :
  wf_state empty_state ∧
  selected_objects empty_state = [] ∧
  ∃ st1 st2,
    V2.OBJECT_OT_generate_platonic.execute
      {| shape_type := "CUBE"; color := (1, 0, 0, 1)%Q; scale := 2%Q;
         clear_before_create := false |} empty_state
    = Ok (FINISHED, st1) ∧
    Operators.OBJECT_OT_delete_selected.execute st1 = Ok (FINISHED, st2) ∧
    data_objects st2 = data_objects empty_state ∧
    collection_objects st2 = collection_objects empty_state ∧
    data_materials st2 !! ("CUBE" +:+ "_Material")
    = Some {| diffuse_color := (1, 0, 0, 1)%Q |} ∧
    next_object st2 = S (next_object empty_state).
Proof.
  assert (Hwf : wf_state empty_state) by compute_done.
  split; [exact Hwf|]. split; [reflexivity|].
  apply (generate_then_delete "CUBE" _ _ empty_state Hwf). reflexivity.
Defined.

(** * Changing the colour *)

Lemma slots_kept_refl (o : Object) : slots_kept o o.
Proof. repeat split; by right. Qed.

Lemma slots_kept_trans (o1 o2 o3 : Object) :
  slots_kept o1 o2 → slots_kept o2 o3 → slots_kept o1 o3.
Proof.
  intros (?&?&?&?&?&?&H12) (?&?&?&?&?&?&H23).
  repeat split; try congruence.
  destruct H12 as [|H12]; [by left|]. destruct H23 as [H23|H23].
  - left. congruence.
  - right. congruence.
Qed.

Lemma recoloured_refl (c : Color) (st : bpy_state) : recoloured c st st.
Proof.
  repeat split; try done.
  - intros i. destruct (data_objects st !! i); constructor. apply slots_kept_refl.
  - by left.
Qed.

Lemma recoloured_trans (c : Color) (st1 st2 st3 : bpy_state) :
  recoloured c st1 st2 → recoloured c st2 st3 → recoloured c st1 st3.
Proof.
  intros (?&?&?&Ho12&Hm12) (?&?&?&Ho23&Hm23).
  repeat split; try congruence.
  - intros i. specialize (Ho12 i). specialize (Ho23 i).
    destruct Ho12 as [o1 o2 H12|]; inversion Ho23; subst; constructor.
    by eapply slots_kept_trans.
  - intros m. destruct (Hm23 m) as [-> | ->]; [apply Hm12 | by right].
Qed.

(** A colour already shown by an object survives further recolouring with
    the same colour. *)
Lemma object_color_kept (c : Color) (st st' : bpy_state) (i : nat) :
  recoloured c st st' → object_color st i = Some c → object_color st' i = Some c.
Proof.
  intros (_&_&_&Hobj&Hmat) Hc. unfold object_color, first_slot in *.
  specialize (Hobj i).
  destruct (data_objects st !! i) as [o|]; [|done].
  inversion Hobj as [? o' Hkept|]; subst. cbn in *.
  destruct Hkept as (_&_&_&_&_&_&[Hnil|Hsame]).
  { by rewrite Hnil in Hc. }
  rewrite Hsame.
  destruct (head (mesh_materials (obj_data o))) as [m|]; [|done]. cbn in *.
  destruct (Hmat m) as [-> | ->]; done.
Qed.

Section change_color.

Context (obj_type : nat → string).
Context (unique_name : string → gmap string Material → string).

(** One turn of the loop.  An object that is not a mesh is passed over.  A
    mesh with a material in its first slot has that material recoloured; a
    mesh without slots gets a new material of the colour; and on a mesh
    whose first slot is empty the assignment of the colour raises. *)
Lemma change_color_object_run (c : Color) (obj : nat) (st : bpy_state) :
  Operators.change_color_object obj_type unique_name c obj st
  = if String.eqb (obj_type obj) "MESH" then
      match first_slot st obj with
      | Some m =>
          match data_materials st !! m with
          | Some _ =>
              Ok (tt,
                  {| data_objects := data_objects st;
                     next_object := next_object st;
                     data_materials :=
                       alter (λ _, {| diffuse_color := c |}) m (data_materials st);
                     collection_objects := collection_objects st;
                     active_object := active_object st |})
          | None => Raise (AttributeError_None "diffuse_color")
          end
      | None =>
          let n := unique_name "Updated_Material" (data_materials st) in
          Ok (tt,
              {| data_objects :=
                   alter (bpy.set_materials [n]) obj (data_objects st);
                 next_object := next_object st;
                 data_materials :=
                   <[n := {| diffuse_color := c |}]> (data_materials st);
                 collection_objects := collection_objects st;
                 active_object := active_object st |})
      end
    else Ok (tt, st).
Proof.
  unfold Operators.change_color_object.
  destruct (String.eqb (obj_type obj) "MESH"); [|reflexivity].
  unfold first_slot, Operators.slot_material, Operators.set_diffuse_color_of,
    Operators.data_materials_new_unique, bpy.obj_data_materials,
    bpy.set_diffuse_color, bpy.update_object, bpy.with_objects, gets, modify,
    mbind, M_bind, mret, M_ret. cbn.
  destruct (data_objects st !! obj) as [o|] eqn:Ho; cbn.
  - destruct (mesh_materials (obj_data o)) as [|m rest] eqn:Hs; cbn.
    + rewrite Ho, Hs. cbn. by rewrite alter_insert_eq.
    + destruct (data_materials st !! m); [|reflexivity].
      cbn. rewrite Ho, Hs. reflexivity.
  - rewrite Ho. cbn. by rewrite alter_insert_eq.
Qed.

(** In a consistent scene no first slot is empty. *)
Lemma wf_first_slot (st : bpy_state) (obj : nat) (m : string) :
  wf_state st → first_slot st obj = Some m → is_Some (data_materials st !! m).
Proof.
  intros Hwf Hslot.
  apply wf_state_pointwise in Hwf as (_ & _ & _ & Hmat).
  unfold first_slot in Hslot.
  destruct (data_objects st !! obj) as [o|] eqn:Ho; [|done]. cbn in Hslot.
  apply (Hmat obj o m Ho).
  destruct (mesh_materials (obj_data o)); [done|].
  injection Hslot as ->. by left.
Qed.

Lemma change_color_object_recoloured (c : Color) (obj : nat) (st : bpy_state) :
  wf_state st →
  ∃ st', Operators.change_color_object obj_type unique_name c obj st = Ok (tt, st') ∧
         recoloured c st st' ∧
         ∀ i, obj_type i ≠ "MESH" → data_objects st' !! i = data_objects st !! i.
Proof.
  intros Hwf. rewrite change_color_object_run.
  destruct (String.eqb_spec (obj_type obj) "MESH") as [Hmesh|Hother].
  2:{ exists st. split; [done|]. split; [apply recoloured_refl | done]. }
  destruct (first_slot st obj) as [m|] eqn:Hslot.
  - destruct (wf_first_slot st obj m Hwf Hslot) as [mat Hm]. rewrite Hm.
    eexists. split; [reflexivity|]. split; [|done].
    repeat split; cbn; try done.
    + intros i. destruct (data_objects st !! i); constructor. apply slots_kept_refl.
    + intros m'. rewrite lookup_alter. case_decide; [subst|by left].
      rewrite Hm. by right.
  - eexists. split; [reflexivity|]. split.
    + repeat split; cbn; try done.
      * intros i. rewrite lookup_alter. case_decide; [subst|].
        -- destruct (data_objects st !! i) as [o|] eqn:Ho; constructor.
           repeat split; cbn; try done. left.
           unfold first_slot in Hslot. rewrite Ho in Hslot. cbn in Hslot.
           by destruct (mesh_materials (obj_data o)).
        -- destruct (data_objects st !! i); constructor. apply slots_kept_refl.
      * intros m'. rewrite lookup_insert. case_decide; [by right | by left].
    + intros i Hi. cbn. apply lookup_alter_ne. congruence.
Qed.

Lemma wf_change_color_object (c : Color) (obj : nat) (st : bpy_state) :
  wf_state st →
  ∃ st', Operators.change_color_object obj_type unique_name c obj st = Ok (tt, st') ∧
         wf_state st'.
Proof.
  intros Hwf. rewrite change_color_object_run.
  destruct (String.eqb (obj_type obj) "MESH"); [|by exists st].
  destruct (first_slot st obj) as [m|] eqn:Hslot.
  - destruct (wf_first_slot st obj m Hwf Hslot) as [mat Hm]. rewrite Hm.
    eexists. split; [reflexivity|].
    apply wf_state_pointwise in Hwf as (Hnd & Hdom & Hlt & Hmat).
    apply wf_state_pointwise.
    repeat split; cbn; try done; try apply Hdom.
    intros i o m' Ho Hm'. apply lookup_alter_is_Some. by eapply Hmat.
  - eexists. split; [reflexivity|].
    apply wf_state_pointwise in Hwf as (Hnd & Hdom & Hlt & Hmat).
    apply wf_state_pointwise.
    cbn zeta. split; [done|]. split; [|split; [done|]].
    + intros i. cbn. rewrite Hdom. by rewrite lookup_alter_is_Some.
    + intros i o m' Ho Hm'. cbn in *. apply lookup_insert_is_Some.
      destruct (decide (unique_name "Updated_Material" (data_materials st) = m'))
        as [|Hne]; [by left | right]. split; [done|].
      apply lookup_alter_Some in Ho as [(_ & o0 & Ho0 & ->)|[_ Ho]].
      * cbn in Hm'. apply list_elem_of_singleton in Hm'. congruence.
      * by eapply Hmat.
Qed.

Lemma change_color_object_colours (c : Color) (obj : nat) (st : bpy_state) :
  wf_state st → is_Some (data_objects st !! obj) → obj_type obj = "MESH" →
  ∃ st', Operators.change_color_object obj_type unique_name c obj st = Ok (tt, st') ∧
         object_color st' obj = Some c.
Proof.
  intros Hwf [o Ho] Hmesh. rewrite change_color_object_run.
  rewrite Hmesh. cbn [String.eqb Ascii.eqb Bool.eqb].
  destruct (first_slot st obj) as [m|] eqn:Hslot.
  - destruct (wf_first_slot st obj m Hwf Hslot) as [mat Hm]. rewrite Hm.
    eexists. split; [reflexivity|].
    unfold object_color. unfold first_slot in *. cbn [data_objects data_materials].
    rewrite Hslot. cbn. rewrite lookup_alter_eq, Hm. done.
  - eexists. split; [reflexivity|].
    unfold object_color, first_slot. cbn.
    rewrite lookup_alter_eq, Ho. cbn. by rewrite lookup_insert_eq.
Qed.

Lemma change_color_loop (c : Color) (l : list nat) (st : bpy_state) :
  wf_state st →
  ∃ st', for_each l (Operators.change_color_object obj_type unique_name c) st
         = Ok (tt, st') ∧
         wf_state st' ∧ recoloured c st st' ∧
         (∀ i, obj_type i ≠ "MESH" → data_objects st' !! i = data_objects st !! i) ∧
         ∀ i, i ∈ l → is_Some (data_objects st !! i) → obj_type i = "MESH" →
              object_color st' i = Some c.
Proof.
  revert st. induction l as [|x l IH]; intros st Hwf; cbn [for_each].
  - exists st. split; [done|]. split; [done|]. split; [apply recoloured_refl|].
    split; [done|]. by intros i ?%elem_of_nil.
  - destruct (change_color_object_recoloured c x st Hwf) as (st1 & Hx & Hr1 & Hk1).
    destruct (wf_change_color_object c x st Hwf) as (st1' & Hx' & Hwf1).
    assert (st1' = st1) as -> by congruence.
    destruct (IH st1 Hwf1) as (st' & Hl & Hwf' & Hr' & Hk' & Hcol).
    exists st'. unfold mbind, M_bind. rewrite Hx.
    split; [done|]. split; [done|]. split; [by eapply recoloured_trans|].
    split; [intros i Hi; by rewrite Hk', Hk1|].
    intros i Hi Hsome Hmesh. apply elem_of_cons in Hi as [->|Hi].
    + destruct (change_color_object_colours c x st Hwf Hsome Hmesh)
        as (st1' & Hx'' & Hc).
      assert (st1' = st1) as -> by congruence.
      by eapply object_color_kept.
    + apply Hcol; [done| |done].
      destruct Hr1 as (_&_&_&Hobj&_). specialize (Hobj i).
      destruct Hsome as [o Ho]. rewrite Ho in Hobj. inversion Hobj. by eexists.
Qed.

Lemma change_color_execute_loop (props : PlatonicSolidProperties)
    (st : bpy_state) (r : result (unit * bpy_state)) :
  for_each (selected_objects st)
    (Operators.change_color_object obj_type unique_name (color props)) st = r →
  Operators.OBJECT_OT_change_color.execute obj_type unique_name props st
  = match r with
    | Ok (_, st') => Ok (FINISHED, st')
    | Raise e => Raise e
    end.
Proof.
  intros <-. unfold Operators.OBJECT_OT_change_color.execute.
  unfold mbind, M_bind, gets, mret, M_ret.
  by destruct (for_each _ _ st) as [[[] st']|e].
Qed.

End change_color.

(** X8: in a consistent scene, [Change Color] gives the chosen colour to
    every selected object of type ['MESH'], those without a material slot
    included, and keeps the scene consistent. *)
Theorem change_color_recolours_selection
    (obj_type : nat → string)
    (unique_name : string → gmap string Material → string)
    (props : PlatonicSolidProperties) (st : bpy_state) :
  wf_state st →
  ∃ st',
    Operators.OBJECT_OT_change_color.execute obj_type unique_name props st
    = Ok (FINISHED, st') ∧
    wf_state st' ∧
    Forall (λ i, object_color st' i = Some (color props))
           (filter (λ i, obj_type i = "MESH") (selected_objects st)).
Proof.
  intros Hwf.
  destruct (change_color_loop obj_type unique_name (color props)
              (selected_objects st) st Hwf)
    as (st' & Hloop & Hwf' & _ & _ & Hcol).
  exists st'. split; [by rewrite (change_color_execute_loop _ _ _ _ _ Hloop)|].
  split; [done|].
  apply Forall_forall. intros i [Hmesh Hi]%list_elem_of_filter.
  apply Hcol; [done| |done].
  apply wf_state_pointwise in Hwf as (_ & Hdom & _). apply Hdom.
  by apply list_elem_of_filter in Hi as [_ Hi].
Qed.

Lemma change_color_recolours_selection_witness :
  wf_state two_cubes ∧
  filter (λ i, all_meshes i = "MESH") (selected_objects two_cubes) = [1] ∧
  ∃ st',
    Operators.OBJECT_OT_change_color.execute all_meshes first_variant
      {| shape_type := "CUBE"; color := (1, 0, 0, 1)%Q; scale := 1%Q;
         clear_before_create := false |} two_cubes
    = Ok (FINISHED, st') ∧
    wf_state st' ∧
    Forall (λ i, object_color st' i = Some (1, 0, 0, 1)%Q)
           (filter (λ i, all_meshes i = "MESH") (selected_objects two_cubes)).
Proof.
  assert (Hwf : wf_state two_cubes) by compute_done.
  split; [exact Hwf|]. split; [reflexivity|].
  apply (change_color_recolours_selection all_meshes first_variant
           {| shape_type := "CUBE"; color := (1, 0, 0, 1)%Q; scale := 1%Q;
              clear_before_create := false |} two_cubes Hwf).
Defined.

(** X9: in a consistent scene [Change Color] changes colours only.  It
    raises nothing, and afterwards the same objects are linked in the same
    order, with their geometry, location, scale and selection as before;
    every material is either untouched or has the chosen colour; and the
    objects that are not of type ['MESH'] are stored exactly as they
    were. *)
Theorem change_color_changes_colours_only
    (obj_type : nat → string)
    (unique_name : string → gmap string Material → string)
    (props : PlatonicSolidProperties) (st : bpy_state) :
  wf_state st →
  ∃ st',
    Operators.OBJECT_OT_change_color.execute obj_type unique_name props st
    = Ok (FINISHED, st') ∧
    recoloured (color props) st st' ∧
    ∀ i, obj_type i ≠ "MESH" → data_objects st' !! i = data_objects st !! i.
Proof.
  intros Hwf.
  destruct (change_color_loop obj_type unique_name (color props)
              (selected_objects st) st Hwf)
    as (st' & Hloop & _ & Hr & Hkept & _).
  exists st'. split; [by rewrite (change_color_execute_loop _ _ _ _ _ Hloop)|].
  split; done.
Qed.

Lemma change_color_changes_colours_only_witness :
  wf_state two_cubes ∧
  ∃ st',
    Operators.OBJECT_OT_change_color.execute camera_first first_variant
      {| shape_type := "CUBE"; color := (1, 0, 0, 1)%Q; scale := 1%Q;
         clear_before_create := false |} two_cubes
    = Ok (FINISHED, st') ∧
    recoloured (1, 0, 0, 1)%Q two_cubes st' ∧
    ∀ i, camera_first i ≠ "MESH" → data_objects st' !! i = data_objects two_cubes !! i.
Proof.
  assert (Hwf : wf_state two_cubes) by compute_done.
  split; [exact Hwf|].
  apply (change_color_changes_colours_only camera_first first_variant
           {| shape_type := "CUBE"; color := (1, 0, 0, 1)%Q; scale := 1%Q;
              clear_before_create := false |} two_cubes Hwf).
Defined.

(** X10: materials are shared, so [Change Color] reaches beyond the
    selection: in a consistent scene, every object whose first material is
    also the first material of a selected object of type ['MESH'] shows the
    chosen colour afterwards, selected or not. *)
Theorem change_color_reaches_sharing_objects
    (obj_type : nat → string)
    (unique_name : string → gmap string Material → string)
    (props : PlatonicSolidProperties) (st : bpy_state) (i j : nat) (m : string) :
  wf_state st →
  i ∈ selected_objects st →
  obj_type i = "MESH" →
  first_slot st i = Some m →
  first_slot st j = Some m →
  ∃ st',
    Operators.OBJECT_OT_change_color.execute obj_type unique_name props st
    = Ok (FINISHED, st') ∧
    object_color st' j = Some (color props).
Proof.
  intros Hwf Hi Hmesh Hslot_i Hslot_j.
  destruct (change_color_loop obj_type unique_name (color props)
              (selected_objects st) st Hwf)
    as (st' & Hloop & _ & Hr & _ & Hcol).
  exists st'. split; [by rewrite (change_color_execute_loop _ _ _ _ _ Hloop)|].
  assert (Hkept : ∀ k, first_slot st k = Some m → first_slot st' k = Some m).
  { intros k Hk. destruct Hr as (_&_&_&Hobj&_). specialize (Hobj k).
    unfold first_slot in *.
    destruct (data_objects st !! k) as [o|]; [|done].
    inversion Hobj as [? o' Hkept|]; subst. cbn in *.
    destruct Hkept as (_&_&_&_&_&_&[Hnil|Hsame]).
    - by rewrite Hnil in Hk.
    - by rewrite Hsame. }
  assert (Hc : object_color st' i = Some (color props)).
  { apply Hcol; [done| |done].
    unfold first_slot in Hslot_i.
    destruct (data_objects st !! i); [by eexists | done]. }
  unfold object_color in *.
  rewrite (Hkept i Hslot_i) in Hc. by rewrite (Hkept j Hslot_j).
Qed.

Lemma change_color_reaches_sharing_objects_witness :
  wf_state two_cubes ∧
  1 ∈ selected_objects two_cubes ∧
  (0 ∉ selected_objects two_cubes) ∧
  all_meshes 1 = "MESH" ∧
  first_slot two_cubes 1 = Some "CUBE_Material" ∧
  first_slot two_cubes 0 = Some "CUBE_Material" ∧
  ∃ st',
    Operators.OBJECT_OT_change_color.execute all_meshes first_variant
      {| shape_type := "CUBE"; color := (1, 0, 0, 1)%Q; scale := 1%Q;
         clear_before_create := false |} two_cubes
    = Ok (FINISHED, st') ∧
    object_color st' 0 = Some (1, 0, 0, 1)%Q.
Proof.
  assert (Hwf : wf_state two_cubes) by compute_done.
  assert (Hsel : 1 ∈ selected_objects two_cubes) by compute_done.
  split; [exact Hwf|]. split; [exact Hsel|]. split; [compute_done|].
  split; [reflexivity|]. split; [reflexivity|]. split; [reflexivity|].
  apply (change_color_reaches_sharing_objects all_meshes first_variant
           {| shape_type := "CUBE"; color := (1, 0, 0, 1)%Q; scale := 1%Q;
              clear_before_create := false |} two_cubes 1 0 "CUBE_Material" Hwf Hsel);
    reflexivity.
Defined.

(** X27: [Change Color] stops with an [AttributeError] when the first
    selected object is a mesh whose first material slot is empty: the
    colour is then assigned to an attribute of [None]. *)
Theorem change_color_empty_slot_raises
    (obj_type : nat → string)
    (unique_name : string → gmap string Material → string)
    (props : PlatonicSolidProperties) (st : bpy_state)
    (i : nat) (rest : list nat) (m : string) :
  selected_objects st = i :: rest →
  obj_type i = "MESH" →
  first_slot st i = Some m →
  data_materials st !! m = None →
  Operators.OBJECT_OT_change_color.execute obj_type unique_name props st
  = Raise (AttributeError_None "diffuse_color").
Proof.
  intros Hsel Hmesh Hslot Hm.
  rewrite (change_color_execute_loop _ _ _ _ _ eq_refl).
  rewrite Hsel. cbn [for_each]. unfold mbind, M_bind.
  rewrite change_color_object_run, Hmesh, Hslot, Hm. reflexivity.
Qed.

Lemma change_color_empty_slot_raises_witness :
  selected_objects two_cubes_without_materials = [1] ∧
  all_meshes 1 = "MESH" ∧
  first_slot two_cubes_without_materials 1 = Some "CUBE_Material" ∧
  data_materials two_cubes_without_materials !! "CUBE_Material" = None ∧
  Operators.OBJECT_OT_change_color.execute all_meshes first_variant
    default_props two_cubes_without_materials
  = Raise (AttributeError_None "diffuse_color").
Proof.
  split; [reflexivity|]. split; [reflexivity|]. split; [reflexivity|].
  split; [reflexivity|].
  apply (change_color_empty_slot_raises all_meshes first_variant default_props
           two_cubes_without_materials 1 [] "CUBE_Material"); reflexivity.
Defined.

(** * Builder utilities *)

(** [create_material], step by step. *)
Lemma create_material_unique_run
    (unique_name : string → gmap string Material → string)
    (name : string) (c : Color) (st : bpy_state) :
  Operators.create_material unique_name name c st
  = let mat := match data_materials st !! name with
               | Some _ => name
               | None => unique_name name (data_materials st)
               end in
    Ok (mat,
        {| data_objects := data_objects st;
           next_object := next_object st;
           data_materials :=
             <[mat := {| diffuse_color := c |}]> (data_materials st);
           collection_objects := collection_objects st;
           active_object := active_object st |}).
Proof.
  unfold Operators.create_material, Operators.data_materials_new_unique,
    bpy.data_materials_get, bpy.set_diffuse_color, gets, modify,
    mbind, M_bind, mret, M_ret. cbn.
  destruct (data_materials st !! name) as [m|] eqn:Hm; cbn.
  - by erewrite alter_const_insert.
  - by rewrite alter_insert_eq.
Qed.

(** On a host that keeps a free name, [Operators.create_material] and
    [SolidBuilder.create_material] coincide, and so do the generating
    operators built on them. *)
Lemma create_material_agrees
    (unique_name : string → gmap string Material → string)
    (name : string) (c : Color) (st : bpy_state) :
  (∀ n m, m !! n = None → unique_name n m = n) →
  Operators.create_material unique_name name c st
  = SolidBuilder.create_material name c st.
Proof.
  intros Hfree. rewrite create_material_unique_run, create_material_run.
  destruct (data_materials st !! name) eqn:Hm; cbn zeta; [done|].
  by rewrite (Hfree _ _ Hm).
Qed.

Lemma generate_agrees
    (unique_name : string → gmap string Material → string)
    (p : PlatonicSolidProperties) (st : bpy_state) :
  (∀ n m, m !! n = None → unique_name n m = n) →
  Operators.OBJECT_OT_generate_platonic.execute unique_name p st
  = V2.OBJECT_OT_generate_platonic.execute p st.
Proof.
  intros Hfree.
  unfold Operators.OBJECT_OT_generate_platonic.execute,
    V2.OBJECT_OT_generate_platonic.execute, V2.get_geometry.
  destruct (clear_before_create p).
  all: unfold mbind, M_bind, mret, M_ret, lift, modify, gets,
         bpy.ops_object_select_all_SELECT, bpy.ops_object_delete,
         bpy.data_objects_new, bpy.update_object, bpy.collection_objects_link,
         SolidBuilder.create_mesh; cbn.
  all: by rewrite create_material_agrees.
Qed.

(** X11: [create_material] makes a material only when none has the name.
    When a material of that name exists, it is the one returned, and the
    host is asked for no other: the scene has the same materials as
    before.  When none exists, the material returned is the new one, under
    the name the host gave it.  In both cases the material returned has
    the colour, every other material is as it was, and so are the
    objects. *)
Theorem create_material_reuses
    (unique_name : string → gmap string Material → string)
    (name : string) (c : Color) (st : bpy_state) :
  ∃ mat st',
    Operators.create_material unique_name name c st = Ok (mat, st') ∧
    match data_materials st !! name with
    | Some _ => mat = name ∧ dom (data_materials st') = dom (data_materials st)
    | None => mat = unique_name name (data_materials st)
    end ∧
    data_materials st' !! mat = Some {| diffuse_color := c |} ∧
    delete mat (data_materials st') = delete mat (data_materials st) ∧
    data_objects st' = data_objects st ∧
    collection_objects st' = collection_objects st.
Proof.
  eexists _, _. split; [apply create_material_unique_run|].
  cbn [data_materials data_objects collection_objects]. split.
  - destruct (data_materials st !! name) as [old|] eqn:Hm; [|done].
    split; [done|]. rewrite dom_insert_L.
    apply subseteq_union_1_L, singleton_subseteq_l, elem_of_dom. by eexists.
  - split; [apply lookup_insert_eq|].
    split; [apply delete_insert_eq|]. split; reflexivity.
Qed.

(** * Metric properties of the tables *)

(** X12: in every table of [v2.py] all edges of the mesh have the same
    length, up to 0.005 on its square, and the edges are exactly the pairs
    of vertices at that distance: every other pair is farther apart.  So
    the face lists join each vertex to its nearest neighbours and to
    nothing else. *)
Theorem edges_join_nearest_vertices (k : SolidKind) :
  edges_are_nearest_pairs 0.005 (nominal_edge_sq k) (V2.geometry_for k).
Proof. destruct k; compute_done. Qed.

(** X13: the vertices of every table of [v2.py] lie on one sphere about
    the origin, up to 0.002 on the square of the radius. *)
Theorem vertices_on_a_sphere (k : SolidKind) :
  Forall (λ v, within 0.002 (sq_norm v) (nominal_radius_sq k))
         (vertices (V2.geometry_for k)).
Proof. destruct k; compute_done. Qed.

(** X14: every face of every table of [v2.py] is planar: the triple
    product that tests whether a further vertex leaves the plane of the
    first three is at most 0.0001 in absolute value. *)
Theorem faces_planar (k : SolidKind) :
  Forall (face_planar 0.0001 (V2.geometry_for k)) (faces (V2.geometry_for k)).
Proof. destruct k; compute_done. Qed.

(** X15: every face of a solid has the same number of indices and every
    vertex lies on the same number of faces: 3 and 3 for the tetrahedron,
    4 and 3 for the cube, 3 and 4 for the octahedron, 5 and 3 for the
    dodecahedron, 3 and 5 for the icosahedron.  In particular no vertex is
    left unused. *)
Theorem faces_and_vertices_regular (k : SolidKind) :
  Forall (λ f : Face, length f = (schlaefli k).1) (faces (V2.geometry_for k)) ∧
  Forall (λ v, length (faces_at (faces (V2.geometry_for k)) v) = (schlaefli k).2)
         (seq 0 (length (vertices (V2.geometry_for k)))).
Proof. destruct k; compute_done. Qed.

(** X16: no table of [v2.py] is consistently wound: in each of them some
    pair of indices is traversed in the same direction by two faces, so the
    two faces on that edge turn opposite ways. *)
Theorem faces_not_consistently_wound (k : SolidKind) :
  ¬ NoDup (directed_edges (faces (V2.geometry_for k))).
Proof. destruct k; compute_done. Qed.

(** The three versions have the same lists of faces, but for the order and
    the direction of traversal of the cube's faces in version 1.1. *)
Lemma faces_v1_3 (k : SolidKind) :
  faces (V1_3.geometry_for k) = faces (V2.geometry_for k).
Proof. by destruct k. Qed.

(** * Registration *)

(** Decide the membership tests of the registry one after the other. *)
Local Ltac class_known :=
  rewrite ?elem_of_difference, ?elem_of_union, ?elem_of_singleton;
  intuition congruence.

Local Ltac registry_step :=
  first [ rewrite decide_False by class_known
        | rewrite decide_True by class_known ];
  cbn [classes scene_attributes].

(** X17: registering and then unregistering the add-on of [v2.py] gives
    the registry back.  On a host that knows none of its classes and has no
    [platonic_props], [register] raises nothing and makes the five classes
    and the attribute known, and [unregister] then raises nothing and
    leaves the registry exactly as it was. *)
Theorem register_unregister (r : registry) :
  Forall (λ c, c ∉ classes r) V2_registration.addon_classes →
  scene_attributes r !! "platonic_props" = None →
  ∃ r1,
    V2_registration.register r = inr r1 ∧
    Forall (λ c, c ∈ classes r1) V2_registration.addon_classes ∧
    scene_attributes r1 !! "platonic_props" = Some "PlatonicSolidProperties" ∧
    V2_registration.unregister r1 = inr r.
Proof.
  intros Hnew Hattr.
  apply Forall_cons_1 in Hnew as [H1 Hnew]. apply Forall_cons_1 in Hnew as [H2 Hnew].
  apply Forall_cons_1 in Hnew as [H3 Hnew]. apply Forall_cons_1 in Hnew as [H4 Hnew].
  apply Forall_cons_1 in Hnew as [H5 _].
  eexists. split.
  { unfold V2_registration.register, and_then, bpy_utils.register_class,
      bpy_utils.set_scene_attribute. cbn [classes scene_attributes].
    repeat registry_step. reflexivity. }
  split; [repeat apply Forall_cons_2; try apply Forall_nil_2; cbn; class_known|].
  split; [apply lookup_insert_eq|].
  unfold V2_registration.unregister, and_then, bpy_utils.unregister_class,
    bpy_utils.del_scene_attribute. cbn [classes scene_attributes].
  repeat registry_step. rewrite lookup_insert_eq.
  cbn [classes scene_attributes]. repeat registry_step.
  destruct r as [cs attrs]. cbn in *. f_equal. f_equal.
  - apply set_eq. intros c. class_known.
  - rewrite delete_insert_eq. by apply delete_id.
Qed.

Lemma register_unregister_witness :
  Forall (λ c, c ∉ classes empty_registry) V2_registration.addon_classes ∧
  scene_attributes empty_registry !! "platonic_props" = None ∧
  ∃ r1,
    V2_registration.register empty_registry = inr r1 ∧
    Forall (λ c, c ∈ classes r1) V2_registration.addon_classes ∧
    scene_attributes r1 !! "platonic_props" = Some "PlatonicSolidProperties" ∧
    V2_registration.unregister r1 = inr empty_registry.
Proof.
  assert (Hnew : Forall (λ c, c ∉ classes empty_registry)
                        V2_registration.addon_classes) by compute_done.
  split; [exact Hnew|]. split; [reflexivity|].
  apply (register_unregister empty_registry Hnew). reflexivity.
Defined.

(** X18: registering and then unregistering the add-on of [v1.3.py],
    which has one class more, the template operator, gives the registry
    back as well: on a host that knows none of its six classes and has no
    [platonic_props], [register] raises nothing and [unregister] then
    leaves the registry exactly as it was. *)
Theorem register_unregister_v1_3 (r : registry) :
  Forall (λ c, c ∉ classes r) V1_3_registration.addon_classes →
  scene_attributes r !! "platonic_props" = None →
  ∃ r1,
    V1_3_registration.register r = inr r1 ∧
    Forall (λ c, c ∈ classes r1) V1_3_registration.addon_classes ∧
    scene_attributes r1 !! "platonic_props" = Some "PlatonicSolidProperties" ∧
    V1_3_registration.unregister r1 = inr r.
Proof.
  intros Hnew Hattr.
  apply Forall_cons_1 in Hnew as [H1 Hnew]. apply Forall_cons_1 in Hnew as [H2 Hnew].
  apply Forall_cons_1 in Hnew as [H3 Hnew]. apply Forall_cons_1 in Hnew as [H4 Hnew].
  apply Forall_cons_1 in Hnew as [H5 Hnew]. apply Forall_cons_1 in Hnew as [H6 _].
  eexists. split.
  { unfold V1_3_registration.register, and_then, bpy_utils.register_class,
      bpy_utils.set_scene_attribute. cbn [classes scene_attributes].
    repeat registry_step. reflexivity. }
  split; [repeat apply Forall_cons_2; try apply Forall_nil_2; cbn; class_known|].
  split; [apply lookup_insert_eq|].
  unfold V1_3_registration.unregister, and_then, bpy_utils.unregister_class,
    bpy_utils.del_scene_attribute. cbn [classes scene_attributes].
  repeat registry_step. rewrite lookup_insert_eq.
  cbn [classes scene_attributes]. repeat registry_step.
  destruct r as [cs attrs]. cbn in *. f_equal. f_equal.
  - apply set_eq. intros c. class_known.
  - rewrite delete_insert_eq. by apply delete_id.
Qed.

Lemma register_unregister_v1_3_witness :
  Forall (λ c, c ∉ classes empty_registry) V1_3_registration.addon_classes ∧
  scene_attributes empty_registry !! "platonic_props" = None ∧
  ∃ r1,
    V1_3_registration.register empty_registry = inr r1 ∧
    Forall (λ c, c ∈ classes r1) V1_3_registration.addon_classes ∧
    scene_attributes r1 !! "platonic_props" = Some "PlatonicSolidProperties" ∧
    V1_3_registration.unregister r1 = inr empty_registry.
Proof.
  assert (Hnew : Forall (λ c, c ∉ classes empty_registry)
                        V1_3_registration.addon_classes) by compute_done.
  split; [exact Hnew|]. split; [reflexivity|].
  apply (register_unregister_v1_3 empty_registry Hnew). reflexivity.
Defined.

(** * The operators of version 1.1 *)

Lemma execute_run_v1_1 (unique_name : string → gmap string Material → string)
    (p : PlatonicSolidProperties) (st : bpy_state) :
  let st0 := cleared (clear_before_create p) st in
  let n := next_object st0 in
  let mat := unique_name (shape_type p +:+ "_Material") (data_materials st0) in
  V1_1_operators.OBJECT_OT_generate_platonic.execute unique_name p st
  = Ok (FINISHED,
        {| data_objects :=
             alter (bpy.set_selected true) n
               (foldr (alter (bpy.set_selected false))
                      (<[n := made_object (shape_type p) mat (scale p) false]>
                         (data_objects st0))
                      (collection_objects st0 ++ [n]));
           next_object := S n;
           data_materials :=
             <[mat := {| diffuse_color := color p |}]> (data_materials st0);
           collection_objects := (collection_objects st0 ++ [n])%list;
           active_object := Some n |}).
Proof.
  intros st0 n mat. subst st0 n mat.
  unfold V1_1_operators.OBJECT_OT_generate_platonic.execute, cleared.
  destruct (clear_before_create p).
  all: unfold mbind, M_bind, mret, M_ret, lift, modify, gets,
    bpy.ops_object_select_all_SELECT, bpy.ops_object_delete,
    ops_object_select_all_DESELECT,
    bpy.data_objects_new, bpy.update_object, bpy.with_objects,
    bpy.collection_objects_link, bpy.obj_data_materials, bpy.set_active,
    Operators.data_materials_new_unique, bpy.set_diffuse_color,
    assign_material; cbn.
  all: unfold mbind, M_bind, mret, M_ret, modify, bpy.update_object,
    bpy.with_objects; cbn.
  all: rewrite ?lookup_insert_eq; cbn.
  all: unfold modify, deselect_all; cbn.
  all: rewrite !alter_insert_eq; cbn; rewrite Geometry_eta.
  all: reflexivity.
Qed.

Lemma data_materials_cleared (b : bool) (st : bpy_state) :
  data_materials (cleared b st) = data_materials st.
Proof. by destruct b. Qed.

(** The objects after the operator of version 1.1: the new one is
    selected, the others are not. *)
Lemma lookup_generated_v1_1 (store : gmap nat Object) (coll : list nat)
    (n i : nat) (o : Object) :
  alter (bpy.set_selected true) n
    (foldr (alter (bpy.set_selected false)) (<[n := o]> store) (coll ++ [n])) !! i
  = if decide (i = n) then Some (bpy.set_selected true o)
    else (if decide (i ∈ coll) then bpy.set_selected false else id) <$> store !! i.
Proof.
  destruct (decide (i = n)) as [->|Hne].
  - rewrite lookup_alter_eq, lookup_foldr_alter by done.
    rewrite lookup_insert_eq.
    rewrite decide_True by (apply elem_of_app; right; by left). done.
  - rewrite lookup_alter_ne by done.
    rewrite lookup_foldr_alter by done.
    rewrite lookup_insert_ne by done.
    destruct (decide (i ∈ coll)) as [Hin|Hnin].
    + rewrite decide_True; [done|]. apply elem_of_app. by left.
    + rewrite decide_False; [done|].
      intros [?|?%list_elem_of_singleton]%elem_of_app; done.
Qed.

(** X19: the generating operator of version 1.1 leaves exactly the new
    object selected, whatever was selected before: it deselects everything
    first.  (Those of versions 1.3 and 2 do not.) *)
Theorem generate_v1_1_selects_only_new
    (unique_name : string → gmap string Material → string)
    (p : PlatonicSolidProperties) (st : bpy_state) :
  wf_state st →
  ∃ st',
    V1_1_operators.OBJECT_OT_generate_platonic.execute unique_name p st
    = Ok (FINISHED, st') ∧
    collection_objects st'
    = (collection_objects (cleared (clear_before_create p) st)
         ++ [next_object st])%list ∧
    selected_objects st' = [next_object st] ∧
    active_object st' = Some (next_object st).
Proof.
  intros Hwf. eexists. split; [apply execute_run_v1_1|].
  apply (wf_cleared (clear_before_create p)) in Hwf.
  rewrite <- (next_object_cleared (clear_before_create p) st).
  revert Hwf. generalize (cleared (clear_before_create p) st) as st0.
  intros st0 Hwf. apply wf_state_pointwise in Hwf as (_ & _ & Hlt & _).
  split; [done|]. split; [|done].
  unfold selected_objects. cbn [collection_objects data_objects].
  rewrite filter_app. rewrite filter_none.
  - rewrite filter_cons_True; [done|].
    unfold bpy.is_selected. rewrite lookup_generated_v1_1.
    by rewrite decide_True.
  - apply Forall_forall. intros i Hi.
    unfold bpy.is_selected. rewrite lookup_generated_v1_1.
    rewrite decide_False by (apply Hlt in Hi; lia).
    rewrite decide_True by done.
    by destruct (data_objects st0 !! i).
Qed.

Lemma generate_v1_1_selects_only_new_witness :
  wf_state two_cubes ∧
  ∃ st',
    V1_1_operators.OBJECT_OT_generate_platonic.execute same_name
      default_props two_cubes
    = Ok (FINISHED, st') ∧
    collection_objects st'
    = (collection_objects (cleared (clear_before_create default_props) two_cubes)
         ++ [next_object two_cubes])%list ∧
    selected_objects st' = [next_object two_cubes] ∧
    active_object st' = Some (next_object two_cubes).
Proof.
  assert (Hwf : wf_state two_cubes) by compute_done.
  split; [exact Hwf|].
  apply (generate_v1_1_selects_only_new same_name default_props two_cubes Hwf).
Defined.

(** X21: version 1.1 never shares a material.  When the host gives the
    new material a name that is not in use, every material the scene had
    keeps its colour, and the new object alone refers to the new one. *)
Theorem generate_v1_1_new_material
    (unique_name : string → gmap string Material → string)
    (p : PlatonicSolidProperties) (st : bpy_state) :
  data_materials st
    !! unique_name (shape_type p +:+ "_Material") (data_materials st) = None →
  ∃ st' o mat,
    V1_1_operators.OBJECT_OT_generate_platonic.execute unique_name p st
    = Ok (FINISHED, st') ∧
    mat = unique_name (shape_type p +:+ "_Material") (data_materials st) ∧
    delete mat (data_materials st') = data_materials st ∧
    data_materials st' !! mat = Some {| diffuse_color := color p |} ∧
    data_objects st' !! next_object st = Some o ∧
    mesh_materials (obj_data o) = [mat].
Proof.
  intros Hfresh. eexists _, _, _. split; [apply execute_run_v1_1|].
  cbn [data_materials data_objects].
  rewrite (data_materials_cleared (clear_before_create p) st).
  rewrite (next_object_cleared (clear_before_create p) st).
  split; [reflexivity|]. split; [|split; [apply lookup_insert_eq|]].
  - rewrite delete_insert_eq. by apply delete_id.
  - split.
    + rewrite lookup_generated_v1_1. by rewrite decide_True.
    + reflexivity.
Qed.

Lemma generate_v1_1_new_material_witness :
  data_materials two_cubes
    !! same_name (shape_type default_props +:+ "_Material")
         (data_materials two_cubes) = None ∧
  ∃ st' o mat,
    V1_1_operators.OBJECT_OT_generate_platonic.execute same_name
      default_props two_cubes
    = Ok (FINISHED, st') ∧
    mat = same_name (shape_type default_props +:+ "_Material")
            (data_materials two_cubes) ∧
    delete mat (data_materials st') = data_materials two_cubes ∧
    data_materials st' !! mat = Some {| diffuse_color := color default_props |} ∧
    data_objects st' !! next_object two_cubes = Some o ∧
    mesh_materials (obj_data o) = [mat].
Proof.
  split; [reflexivity|].
  apply (generate_v1_1_new_material same_name default_props two_cubes).
  reflexivity.
Defined.

(** X22: [Clear All Objects] of version 1.1 empties a consistent scene:
    no object stays linked or stored; the materials all stay. *)
Theorem clear_scene_empties (st : bpy_state) :
  wf_state st →
  ∃ st',
    V1_1_operators.OBJECT_OT_clear_scene.execute st = Ok (FINISHED, st') ∧
    collection_objects st' = [] ∧
    data_objects st' = ∅ ∧
    data_materials st' = data_materials st ∧
    wf_state st'.
Proof.
  intros Hwf. exists (cleared true st). split; [reflexivity|].
  destruct (cleared_true_empty st Hwf) as [Hcoll Hobj].
  split; [done|]. split; [done|]. split; [reflexivity|].
  by apply wf_cleared.
Qed.

Lemma clear_scene_empties_witness :
  wf_state two_cubes ∧
  ∃ st',
    V1_1_operators.OBJECT_OT_clear_scene.execute two_cubes = Ok (FINISHED, st') ∧
    collection_objects st' = [] ∧
    data_objects st' = ∅ ∧
    data_materials st' = data_materials two_cubes ∧
    wf_state st'.
Proof.
  assert (Hwf : wf_state two_cubes) by compute_done.
  split; [exact Hwf|].
  apply (clear_scene_empties two_cubes Hwf).
Defined.

(** * The builder and the operators of version 1.3 *)

(** X23: [add_object] returns the number of a new object: no object was
    stored under it, the object is linked last, every other object is as
    before, and a consistent scene stays consistent. *)
Theorem add_object_links_new_object (name : string) (k : SolidKind)
    (c : Color) (s : Q) (loc : Vector3) (st : bpy_state) :
  wf_state st →
  ∃ st',
    V1_3.add_object name k c s loc st = Ok (next_object st, st') ∧
    data_objects st !! next_object st = None ∧
    delete (next_object st) (data_objects st') = data_objects st ∧
    collection_objects st' = (collection_objects st ++ [next_object st])%list ∧
    wf_state st'.
Proof.
  intros Hwf. eexists. split; [apply add_object_run|].
  assert (Hnew : data_objects st !! next_object st = None).
  { apply wf_state_pointwise in Hwf as (_ & Hdom & Hlt & _).
    destruct (data_objects st !! next_object st) eqn:Ho; [|done].
    assert (next_object st ∈ collection_objects st) as Hin%Hlt
      by (apply Hdom; by eexists).
    lia. }
  split; [done|]. split; [|split; [done|by apply wf_with_built]].
  cbn [with_built data_objects]. rewrite delete_insert_eq. by apply delete_id.
Qed.

Lemma add_object_links_new_object_witness :
  wf_state two_cubes ∧
  ∃ st',
    V1_3.add_object "Cube" Cube (1, 0, 0, 1)%Q 2%Q (4, 0, 0)%Q two_cubes
    = Ok (next_object two_cubes, st') ∧
    data_objects two_cubes !! next_object two_cubes = None ∧
    delete (next_object two_cubes) (data_objects st') = data_objects two_cubes ∧
    collection_objects st'
    = (collection_objects two_cubes ++ [next_object two_cubes])%list ∧
    wf_state st'.
Proof.
  assert (Hwf : wf_state two_cubes) by compute_done.
  split; [exact Hwf|].
  apply (add_object_links_new_object "Cube" Cube _ _ _ two_cubes Hwf).
Defined.

(** X24: the generating operator of version 1.3 keeps the scene
    consistent and adds the new object to the selection, but, unlike that
    of version 2, it leaves the active object as it was. *)
Theorem generate_v1_3_keeps_active (p : PlatonicSolidProperties)
    (st : bpy_state) :
  wf_state st →
  ∃ st',
    V1_3.OBJECT_OT_generate_platonic.execute p st = Ok (FINISHED, st') ∧
    wf_state st' ∧
    selected_objects st'
    = (selected_objects (cleared (clear_before_create p) st)
         ++ [next_object st])%list ∧
    active_object st' = active_object (cleared (clear_before_create p) st).
Proof.
  intros Hwf. eexists. split; [apply execute_run_v1_3|].
  apply (wf_cleared (clear_before_create p)) in Hwf.
  split; [by apply wf_with_built|]. split; [|reflexivity].
  rewrite selected_with_built by done.
  by rewrite next_object_cleared.
Qed.

Lemma generate_v1_3_keeps_active_witness :
  wf_state two_cubes ∧
  ∃ st',
    V1_3.OBJECT_OT_generate_platonic.execute default_props two_cubes
    = Ok (FINISHED, st') ∧
    wf_state st' ∧
    selected_objects st'
    = (selected_objects (cleared (clear_before_create default_props) two_cubes)
         ++ [next_object two_cubes])%list ∧
    active_object st'
    = active_object (cleared (clear_before_create default_props) two_cubes).
Proof.
  assert (Hwf : wf_state two_cubes) by compute_done.
  split; [exact Hwf|].
  apply (generate_v1_3_keeps_active default_props two_cubes Hwf).
Defined.

(** X25: the template gives each of its five solids a material of its
    own, named after the solid, with the chosen colour; and as these names
    differ from those the generating operator uses, the materials of the
    solids generated one by one are left as they were. *)
Theorem template_materials (p : PlatonicSolidProperties) (st : bpy_state) :
  ∃ st',
    V1_3.OBJECT_OT_generate_template1.execute p st = Ok (FINISHED, st') ∧
    Forall2 (named_with_material st') (seq (next_object st) 5) template_names ∧
    Forall (λ name, data_materials st' !! (name +:+ "_Material")
                    = Some {| diffuse_color := color p |}) template_names ∧
    Forall (λ k, data_materials st' !! (kind_key k +:+ "_Material")
                 = data_materials st !! (kind_key k +:+ "_Material")) all_kinds.
Proof.
  eexists. split; [apply template_run|].
  rewrite <- (next_object_cleared (clear_before_create p) st).
  rewrite <- (data_materials_cleared (clear_before_create p) st).
  generalize (cleared (clear_before_create p) st) as st0. intros st0.
  cbn [foldl]. split; [|split].
  - cbn [seq template_names].
    repeat apply Forall2_cons_2; try apply Forall2_nil_2.
    all: eexists; split; [find_built | split; reflexivity].
  - repeat apply Forall_cons_2; try apply Forall_nil_2.
    all: unfold with_built; cbn [data_materials].
    all: repeat (rewrite lookup_insert_ne by done).
    all: apply lookup_insert_eq.
  - repeat apply Forall_cons_2; try apply Forall_nil_2.
    all: unfold with_built; cbn [data_materials kind_key].
    all: by repeat (rewrite lookup_insert_ne by done).
Qed.

(** X26: on a host that keeps a free name, the generating operator of
    version 2 shares one material among all solids of a kind: generating
    the kind again with another colour makes no second material and gives
    that colour to the solid generated first as well. *)
Theorem generate_recolours_earlier_solids
    (unique_name : string → gmap string Material → string)
    (k : SolidKind) (s1 s2 : Q) (c1 c2 : Color) (st : bpy_state) :
  (∀ n m, m !! n = None → unique_name n m = n) →
  ∃ st1 st2,
    Operators.OBJECT_OT_generate_platonic.execute unique_name
      {| shape_type := kind_key k; color := c1; scale := s1;
         clear_before_create := false |} st
    = Ok (FINISHED, st1) ∧
    object_color st1 (next_object st) = Some c1 ∧
    Operators.OBJECT_OT_generate_platonic.execute unique_name
      {| shape_type := kind_key k; color := c2; scale := s2;
         clear_before_create := false |} st1
    = Ok (FINISHED, st2) ∧
    dom (data_materials st2) = dom (data_materials st1) ∧
    first_slot st2 (next_object st) = first_slot st2 (S (next_object st)) ∧
    object_color st2 (next_object st) = Some c2 ∧
    object_color st2 (S (next_object st)) = Some c2.
Proof.
  intros Hfree. eexists _, _.
  split; [rewrite generate_agrees by done; apply execute_run|].
  cbn [shape_type color scale clear_before_create cleared].
  split.
  { unfold object_color, first_slot, with_built. cbn [data_objects data_materials].
    rewrite lookup_insert_eq. cbn. by rewrite lookup_insert_eq. }
  split; [rewrite generate_agrees by done; apply execute_run|].
  cbn [shape_type color scale clear_before_create cleared].
  unfold object_color, first_slot, with_built.
  cbn [data_objects data_materials next_object].
  split; [by rewrite insert_insert_eq, !dom_insert_L|].
  rewrite lookup_insert_eq. rewrite lookup_insert_ne by lia.
  rewrite lookup_insert_eq. cbn. split; [done|].
  by rewrite lookup_insert_eq.
Qed.

Lemma generate_recolours_earlier_solids_witness :
  (∀ n m, m !! n = None → first_variant n m = n) ∧
  ∃ st1 st2,
    Operators.OBJECT_OT_generate_platonic.execute first_variant
      {| shape_type := kind_key Cube; color := (1, 0, 0, 1)%Q; scale := 1%Q;
         clear_before_create := false |} empty_state
    = Ok (FINISHED, st1) ∧
    object_color st1 (next_object empty_state) = Some (1, 0, 0, 1)%Q ∧
    Operators.OBJECT_OT_generate_platonic.execute first_variant
      {| shape_type := kind_key Cube; color := (0, 0, 1, 1)%Q; scale := 2%Q;
         clear_before_create := false |} st1
    = Ok (FINISHED, st2) ∧
    dom (data_materials st2) = dom (data_materials st1) ∧
    first_slot st2 (next_object empty_state)
    = first_slot st2 (S (next_object empty_state)) ∧
    object_color st2 (next_object empty_state) = Some (0, 0, 1, 1)%Q ∧
    object_color st2 (S (next_object empty_state)) = Some (0, 0, 1, 1)%Q.
Proof.
  assert (Hfree : ∀ n m, m !! n = None → first_variant n m = n).
  { intros n m Hm. unfold first_variant. by rewrite Hm. }
  split; [exact Hfree|].
  apply (generate_recolours_earlier_solids first_variant Cube 1%Q 2%Q
           (1, 0, 0, 1)%Q (0, 0, 1, 1)%Q empty_state Hfree).
Defined.
